(** * Whiteboard annotation engine: a shallow embedding of [src/App.tsx]

    The React component [App] is modelled as a record of its state cells
    ([useState]) and refs ([useRef]); every event handler of the component is
    a function from the state before the event to the state after it.  What
    a handler reads from the host (the canvas' bounding rectangle, the
    window size, the clock) is passed in an [Env] record.

    JavaScript numbers are IEEE-754 binary64 values, so [number] is Rocq's
    primitive [float]; strings are [string]; [Date.now()] is an integral
    number of milliseconds and is kept as a [Z]. *)

From Stdlib Require Import Floats ZArith List String Ascii Bool Lia.
From Stdlib Require Import DecimalString DecimalZ.
Import ListNotations.

Set Implicit Arguments.

(* ================================================================= *)
(** ** Numbers *)

Module JS.

Definition number := float.

Definition NaN : number := nan.

(** [Math.PI], the binary64 value nearest to pi. *)
Definition Math_PI : number := 0x1.921fb54442d18p+1%float.

Definition Math_sqrt (a : number) : number := PrimFloat.sqrt a.

(** [Math.pow(a, 2)]: the correctly rounded square. *)
Definition Math_pow2 (a : number) : number := (a * a)%float.

(** [a > b] and [a < b] on numbers; both are false when an operand is NaN. *)
Definition gt (a b : number) : bool := (b <? a)%float.
Definition lt (a b : number) : bool := (a <? b)%float.
Definition le (a b : number) : bool := (a <=? b)%float.

(** The Number value of a mathematical integer (round to nearest, ties to
    even); [negzero] selects -0 for the integer 0. *)
Definition ofZ (negzero : bool) (z : Z) : number :=
  SF2Prim (binary_normalize prec emax z 0 negzero).

(** Truthiness of a string: only the empty string is falsy. *)
Definition truthy (s : string) : bool :=
  match s with EmptyString => false | String _ _ => true end.

(** [s.indexOf(t) !== -1] *)
Definition includes (t s : string) : bool :=
  match String.index 0 t s with Some _ => true | None => false end.

(** *** [parseInt(string)] with no radix argument *)

Definition isWhiteSpace (c : ascii) : bool :=
  let n := nat_of_ascii c in
  existsb (Nat.eqb n) [9; 10; 11; 12; 13; 32; 160].

Fixpoint trimStart (s : string) : string :=
  match s with
  | String c r => if isWhiteSpace c then trimStart r else s
  | EmptyString => EmptyString
  end.

(** Value of a digit character in radix up to 36. *)
Definition digitValue (c : ascii) : option Z :=
  let n := Z.of_nat (nat_of_ascii c) in
  if ((48 <=? n) && (n <=? 57))%Z then Some (n - 48)%Z
  else if ((97 <=? n) && (n <=? 122))%Z then Some (n - 87)%Z
  else if ((65 <=? n) && (n <=? 90))%Z then Some (n - 55)%Z
  else None.

(** The integer denoted by the longest prefix of radix-[R] digits; [acc]
    is [None] as long as no digit has been read. *)
Fixpoint parseDigits (R : Z) (s : string) (acc : option Z) : option Z :=
  match s with
  | String c r =>
      match digitValue c with
      | Some d =>
          if (d <? R)%Z
          then parseDigits R r
                 (Some (match acc with Some a => a * R + d | None => d end)%Z)
          else acc
      | None => acc
      end
  | EmptyString => acc
  end.

Definition stripSign (s : string) : bool * string :=
  match s with
  | String "-" r => (true, r)
  | String "+" r => (false, r)
  | _ => (false, s)
  end.

Definition stripPrefix (s : string) : Z * string :=
  match s with
  | String "0" (String "x" r) => (16%Z, r)
  | String "0" (String "X" r) => (16%Z, r)
  | _ => (10%Z, s)
  end.

Definition parseInt (input : string) : number :=
  let (neg, s1) := stripSign (trimStart input) in
  let (R, s2) := stripPrefix s1 in
  match parseDigits R s2 None with
  | None => NaN
  | Some m => ofZ neg (if neg then - m else m)%Z
  end.

(** A template literal [`${n}`] of an integral number: its decimal digits. *)
Definition toString (n : Z) : string := NilEmpty.string_of_int (Z.to_int n).

End JS.

Import JS.

(* ================================================================= *)
(** ** Data model (lines 6-30 and 63-65 of the source) *)

Inductive Tool := pen | sticker | eraser | text | none.

Definition Tool_eqb (a b : Tool) : bool :=
  match a, b with
  | pen, pen | sticker, sticker | eraser, eraser | text, text | none, none => true
  | _, _ => false
  end.

Module Sticker.
Record t := mk
  { id : string; type : string;
    x : number; y : number; width : number; height : number }.
End Sticker.

Module TextBox.
Record t := mk
  { id : string;
    x : number; y : number; width : number; height : number;
    content : string }.
End TextBox.

Module Image.
Record t := mk
  { id : string;
    x : number; y : number; width : number; height : number;
    url : string }.
End Image.

Definition StickerType := Sticker.t.
Definition TextBoxType := TextBox.t.
Definition ImageType := Image.t.

Definition DEFAULT_PEN_SIZE : number := 3%float.
Definition DEFAULT_COLOR : string := "#000000".
Definition STICKER_DEFAULT_SIZE : number := 50%float.

Record Point := { px : number; py : number }.

(* ================================================================= *)
(** ** The 2D rendering context

    The part of [CanvasRenderingContext2D] the component calls.  The
    current path is the sequence of path-building calls since [beginPath];
    the bitmap is the sequence of paint operations applied to it, each with
    the drawing state it was painted under.  Only [stroke] and [fillRect]
    paint. *)

Module Ctx.

Inductive PathCmd :=
| MoveTo (x y : number)
| LineTo (x y : number)
| Arc (x y radius startAngle endAngle : number)
| ClosePath.

Definition Path := list PathCmd.

(** The drawing state that [save] pushes and [restore] pops. *)
Record DrawState := mkDraw
  { strokeStyle : string;
    fillStyle : string;
    lineWidth : number;
    lineCap : string;
    lineJoin : string;
    transform : number * number;
    clip : list Path }.

Inductive Paint :=
| Stroke (p : Path) (d : DrawState)
| FillRect (x y w h : number) (d : DrawState).

Record t := mk
  { draw : DrawState;
    stack : list DrawState;
    path : Path;
    bitmap : list Paint }.

Definition withDraw (f : DrawState -> DrawState) (c : t) : t :=
  mk (f (draw c)) (stack c) (path c) (bitmap c).

Definition set_strokeStyle (v : string) : t -> t :=
  withDraw (fun d => mkDraw v (fillStyle d) (lineWidth d) (lineCap d)
                       (lineJoin d) (transform d) (clip d)).
Definition set_fillStyle (v : string) : t -> t :=
  withDraw (fun d => mkDraw (strokeStyle d) v (lineWidth d) (lineCap d)
                       (lineJoin d) (transform d) (clip d)).
Definition set_lineWidth (v : number) : t -> t :=
  withDraw (fun d => mkDraw (strokeStyle d) (fillStyle d) v (lineCap d)
                       (lineJoin d) (transform d) (clip d)).
Definition set_lineCap (v : string) : t -> t :=
  withDraw (fun d => mkDraw (strokeStyle d) (fillStyle d) (lineWidth d) v
                       (lineJoin d) (transform d) (clip d)).
Definition set_lineJoin (v : string) : t -> t :=
  withDraw (fun d => mkDraw (strokeStyle d) (fillStyle d) (lineWidth d)
                       (lineCap d) v (transform d) (clip d)).
Definition scale (sx sy : number) : t -> t :=
  withDraw (fun d => mkDraw (strokeStyle d) (fillStyle d) (lineWidth d)
                       (lineCap d) (lineJoin d)
                       (fst (transform d) * sx, snd (transform d) * sy)%float
                       (clip d)).

Definition save (c : t) : t :=
  mk (draw c) (draw c :: stack c) (path c) (bitmap c).

Definition restore (c : t) : t :=
  match stack c with
  | [] => c
  | d :: rest => mk d rest (path c) (bitmap c)
  end.

Definition beginPath (c : t) : t :=
  mk (draw c) (stack c) [] (bitmap c).

Definition addPath (cmd : PathCmd) (c : t) : t :=
  mk (draw c) (stack c) (path c ++ [cmd]) (bitmap c).

Definition moveTo (x y : number) : t -> t := addPath (MoveTo x y).
Definition lineTo (x y : number) : t -> t := addPath (LineTo x y).

(** [closePath] does nothing on a path with no subpath. *)
Definition closePath (c : t) : t :=
  match path c with
  | [] => c
  | _ :: _ => addPath ClosePath c
  end.

(** [arc] throws an IndexSizeError on a negative radius ([None]). *)
Definition arc (x y radius a0 a1 : number) (c : t) : option t :=
  if lt radius 0%float then None else Some (addPath (Arc x y radius a0 a1) c).

(** [clip] intersects the clipping region with the current path. *)
Definition doClip (c : t) : t :=
  withDraw (fun d => mkDraw (strokeStyle d) (fillStyle d) (lineWidth d)
                       (lineCap d) (lineJoin d) (transform d)
                       (path c :: clip d)) c.

Definition stroke (c : t) : t :=
  mk (draw c) (stack c) (path c) (bitmap c ++ [Stroke (path c) (draw c)]).

Definition fillRect (x y w h : number) (c : t) : t :=
  mk (draw c) (stack c) (path c) (bitmap c ++ [FillRect x y w h (draw c)]).

(** A fresh context as [getContext("2d")] returns it. *)
Definition fresh : t :=
  mk (mkDraw "#000000" "#000000" 1%float "butt" "miter" (1%float, 1%float) [])
     [] [] [].

End Ctx.

Definition CanvasRenderingContext2D := Ctx.t.

(** The canvas element: its bitmap size (set at mount). *)
Record HTMLCanvasElement := { canvas_width : number; canvas_height : number }.

(* ================================================================= *)
(** ** Component state: the [useState] cells and the refs *)

Record State := mkState
  { tool : Tool;
    selectedColor : string;
    penSize : number;
    selectedSticker : string;
    showColorPicker : bool;
    showStickerPicker : bool;
    stickers : list StickerType;
    textBoxes : list TextBoxType;
    images : list ImageType;
    scale : number;
    isDrawing : bool;
    activeTextBox : option string;
    canvasRef : option HTMLCanvasElement;
    contextRef : option CanvasRenderingContext2D;
    lastPosition : option Point }.

(** The state of the first render, before the canvas is mounted. *)
Definition initialState : State :=
  {| tool := none;
     selectedColor := DEFAULT_COLOR;
     penSize := DEFAULT_PEN_SIZE;
     selectedSticker := "";
     showColorPicker := false;
     showStickerPicker := false;
     stickers := [];
     textBoxes := [];
     images := [];
     scale := 1%float;
     isDrawing := false;
     activeTextBox := None;
     canvasRef := None;
     contextRef := None;
     lastPosition := None |}.

(** State setters. *)
Definition setTool (v : Tool) (s : State) : State :=
  mkState v (selectedColor s) (penSize s) (selectedSticker s)
    (showColorPicker s) (showStickerPicker s) (stickers s) (textBoxes s)
    (images s) (scale s) (isDrawing s) (activeTextBox s) (canvasRef s)
    (contextRef s) (lastPosition s).
Definition setSelectedColor (v : string) (s : State) : State :=
  mkState (tool s) v (penSize s) (selectedSticker s)
    (showColorPicker s) (showStickerPicker s) (stickers s) (textBoxes s)
    (images s) (scale s) (isDrawing s) (activeTextBox s) (canvasRef s)
    (contextRef s) (lastPosition s).
Definition setPenSize (v : number) (s : State) : State :=
  mkState (tool s) (selectedColor s) v (selectedSticker s)
    (showColorPicker s) (showStickerPicker s) (stickers s) (textBoxes s)
    (images s) (scale s) (isDrawing s) (activeTextBox s) (canvasRef s)
    (contextRef s) (lastPosition s).
Definition setSelectedSticker (v : string) (s : State) : State :=
  mkState (tool s) (selectedColor s) (penSize s) v
    (showColorPicker s) (showStickerPicker s) (stickers s) (textBoxes s)
    (images s) (scale s) (isDrawing s) (activeTextBox s) (canvasRef s)
    (contextRef s) (lastPosition s).
Definition setShowColorPicker (v : bool) (s : State) : State :=
  mkState (tool s) (selectedColor s) (penSize s) (selectedSticker s)
    v (showStickerPicker s) (stickers s) (textBoxes s)
    (images s) (scale s) (isDrawing s) (activeTextBox s) (canvasRef s)
    (contextRef s) (lastPosition s).
Definition setShowStickerPicker (v : bool) (s : State) : State :=
  mkState (tool s) (selectedColor s) (penSize s) (selectedSticker s)
    (showColorPicker s) v (stickers s) (textBoxes s)
    (images s) (scale s) (isDrawing s) (activeTextBox s) (canvasRef s)
    (contextRef s) (lastPosition s).
(** [setStickers(prev => f(prev))] and its two siblings take an updater. *)
Definition setStickers (f : list StickerType -> list StickerType) (s : State)
  : State :=
  mkState (tool s) (selectedColor s) (penSize s) (selectedSticker s)
    (showColorPicker s) (showStickerPicker s) (f (stickers s)) (textBoxes s)
    (images s) (scale s) (isDrawing s) (activeTextBox s) (canvasRef s)
    (contextRef s) (lastPosition s).
Definition setTextBoxes (f : list TextBoxType -> list TextBoxType) (s : State)
  : State :=
  mkState (tool s) (selectedColor s) (penSize s) (selectedSticker s)
    (showColorPicker s) (showStickerPicker s) (stickers s) (f (textBoxes s))
    (images s) (scale s) (isDrawing s) (activeTextBox s) (canvasRef s)
    (contextRef s) (lastPosition s).
Definition setImages (f : list ImageType -> list ImageType) (s : State)
  : State :=
  mkState (tool s) (selectedColor s) (penSize s) (selectedSticker s)
    (showColorPicker s) (showStickerPicker s) (stickers s) (textBoxes s)
    (f (images s)) (scale s) (isDrawing s) (activeTextBox s) (canvasRef s)
    (contextRef s) (lastPosition s).
Definition setScale (f : number -> number) (s : State) : State :=
  mkState (tool s) (selectedColor s) (penSize s) (selectedSticker s)
    (showColorPicker s) (showStickerPicker s) (stickers s) (textBoxes s)
    (images s) (f (scale s)) (isDrawing s) (activeTextBox s) (canvasRef s)
    (contextRef s) (lastPosition s).
Definition setIsDrawing (v : bool) (s : State) : State :=
  mkState (tool s) (selectedColor s) (penSize s) (selectedSticker s)
    (showColorPicker s) (showStickerPicker s) (stickers s) (textBoxes s)
    (images s) (scale s) v (activeTextBox s) (canvasRef s)
    (contextRef s) (lastPosition s).
Definition setActiveTextBox (v : option string) (s : State) : State :=
  mkState (tool s) (selectedColor s) (penSize s) (selectedSticker s)
    (showColorPicker s) (showStickerPicker s) (stickers s) (textBoxes s)
    (images s) (scale s) (isDrawing s) v (canvasRef s)
    (contextRef s) (lastPosition s).
(** Assignments to [canvasRef.current], [contextRef.current] and
    [lastPosition.current]. *)
Definition setCanvasRef (v : option HTMLCanvasElement) (s : State) : State :=
  mkState (tool s) (selectedColor s) (penSize s) (selectedSticker s)
    (showColorPicker s) (showStickerPicker s) (stickers s) (textBoxes s)
    (images s) (scale s) (isDrawing s) (activeTextBox s) v
    (contextRef s) (lastPosition s).
Definition setContextRef (v : option CanvasRenderingContext2D) (s : State)
  : State :=
  mkState (tool s) (selectedColor s) (penSize s) (selectedSticker s)
    (showColorPicker s) (showStickerPicker s) (stickers s) (textBoxes s)
    (images s) (scale s) (isDrawing s) (activeTextBox s) (canvasRef s)
    v (lastPosition s).
Definition setLastPosition (v : option Point) (s : State) : State :=
  mkState (tool s) (selectedColor s) (penSize s) (selectedSticker s)
    (showColorPicker s) (showStickerPicker s) (stickers s) (textBoxes s)
    (images s) (scale s) (isDrawing s) (activeTextBox s) (canvasRef s)
    (contextRef s) v.

(** Apply context calls to [contextRef.current]; nothing when it is null. *)
Definition onContext (f : Ctx.t -> Ctx.t) (s : State) : State :=
  match contextRef s with
  | Some c => setContextRef (Some (f c)) s
  | None => s
  end.

(** The painted content of the raster surface (empty before the context
    exists). *)
Definition surface (s : State) : list Ctx.Paint :=
  match contextRef s with
  | Some c => Ctx.bitmap c
  | None => []
  end.

(* ================================================================= *)
(** ** Host readings and events *)

(** What a handler reads from the host while it runs:
    [canvas.getBoundingClientRect()], the window size and [Date.now()]. *)
Record Env :=
  { rect_left : number; rect_top : number;
    innerWidth : number; innerHeight : number;
    now : Z }.

(** A mouse event.  [buttons] is the pressed-buttons mask the host reports
    with every mouse event (0 when no button is held); no handler of the
    component reads it. *)
Record MouseEvent := { clientX : number; clientY : number; buttons : Z }.

(** The pointer position in canvas space (lines 143-145, 168-170, 195-197,
    259-261). *)
Definition canvasPoint (env : Env) (e : MouseEvent) (s : State) : Point :=
  {| px := ((clientX e - rect_left env) / scale s)%float;
     py := ((clientY e - rect_top env) / scale s)%float |}.

(* ================================================================= *)
(** ** Canvas set-up and style effects (lines 87-117) *)

(** React attaches the canvas element, then the mount effect sizes it,
    asks for a 2D context ([getContext], which may fail) and configures it. *)
Definition mountCanvas (env : Env) (getContext : option Ctx.t) (s : State)
  : State :=
  let canvas := {| canvas_width := (innerWidth env * 2)%float;
                   canvas_height := (innerHeight env * 2)%float |} in
  let s := setCanvasRef (Some canvas) s in
  match getContext with
  | Some context =>
      let context := Ctx.scale 2%float 2%float context in
      let context := Ctx.set_lineCap "round" context in
      let context := Ctx.set_lineJoin "round" context in
      let context := Ctx.set_strokeStyle (selectedColor s) context in
      let context := Ctx.set_lineWidth (penSize s) context in
      let context := Ctx.set_fillStyle "white" context in
      let context :=
        Ctx.fillRect 0%float 0%float (canvas_width canvas)
          (canvas_height canvas) context in
      setContextRef (Some context) s
  | None => s
  end.

(** The effect on [selectedColor] and [penSize]. *)
Definition syncStyle (s : State) : State :=
  onContext (fun c => Ctx.set_lineWidth (penSize s)
                        (Ctx.set_strokeStyle (selectedColor s) c)) s.

Definition pickColor (color : string) (s : State) : State :=
  syncStyle (setSelectedColor color s).

(** The pen-size slider: [setPenSize(parseInt(e.target.value))]. *)
Definition changePenSize (value : string) (s : State) : State :=
  syncStyle (setPenSize (parseInt value) s).

(* ================================================================= *)
(** ** Tool selection (lines 120-133, 647-650) *)

Definition handleToolChange (newTool : Tool) (s : State) : State :=
  let s := setTool newTool s in
  match newTool with
  | pen => setShowStickerPicker false (setShowColorPicker true s)
  | sticker => setShowStickerPicker true (setShowColorPicker false s)
  | _ => setShowStickerPicker false (setShowColorPicker false s)
  end.

Definition pickSticker (type : string) (s : State) : State :=
  setTool sticker (setSelectedSticker type s).

(* ================================================================= *)
(** ** Freehand strokes (lines 136-185) *)

Definition startDrawing (env : Env) (e : MouseEvent) (s : State) : State :=
  if negb (Tool_eqb (tool s) pen) then s
  else
    match canvasRef s, contextRef s with
    | Some _, Some c =>
        let p := canvasPoint env e s in
        let c := Ctx.moveTo (px p) (py p) (Ctx.beginPath c) in
        setLastPosition (Some p) (setIsDrawing true (setContextRef (Some c) s))
    | _, _ => s
    end.

Definition draw (env : Env) (e : MouseEvent) (s : State) : State :=
  if negb (isDrawing s) || negb (Tool_eqb (tool s) pen) then s
  else
    match contextRef s, lastPosition s with
    | Some c, Some _ =>
        match canvasRef s with
        | None => s
        | Some _ =>
            let p := canvasPoint env e s in
            let c := Ctx.stroke (Ctx.lineTo (px p) (py p) c) in
            setLastPosition (Some p) (setContextRef (Some c) s)
        end
    | _, _ => s
    end.

Definition stopDrawing (s : State) : State :=
  setLastPosition None (setIsDrawing false (onContext Ctx.closePath s)).

(* ================================================================= *)
(** ** The eraser (lines 188-251) *)

(** Distance from the center of the box [(ox, oy, ow, oh)] to [(x, y)], as
    the three filter callbacks compute it. *)
Definition centerDistance (ox oy ow oh x y : number) : number :=
  let centerX := (ox + ow / 2)%float in
  let centerY := (oy + oh / 2)%float in
  Math_sqrt (Math_pow2 (centerX - x) + Math_pow2 (centerY - y))%float.

Definition stickerDistance (c : Point) (o : StickerType) : number :=
  centerDistance (Sticker.x o) (Sticker.y o) (Sticker.width o)
    (Sticker.height o) (px c) (py c).
Definition textBoxDistance (c : Point) (o : TextBoxType) : number :=
  centerDistance (TextBox.x o) (TextBox.y o) (TextBox.width o)
    (TextBox.height o) (px c) (py c).
Definition imageDistance (c : Point) (o : ImageType) : number :=
  centerDistance (Image.x o) (Image.y o) (Image.width o)
    (Image.height o) (px c) (py c).

Definition eraseRadius (s : State) : number := (penSize s * 2)%float.

(** The canvas part: clear the disc of radius [radius] around [(x, y)].
    [None] when [arc] throws. *)
Definition eraseCircle (x y radius : number) (c : Ctx.t) : option Ctx.t :=
  let c := Ctx.beginPath (Ctx.save c) in
  match Ctx.arc x y radius 0%float (Math_PI * 2)%float c with
  | None => None
  | Some c =>
      let c := Ctx.doClip c in
      let c := Ctx.set_fillStyle "white" c in
      let c := Ctx.fillRect (x - radius)%float (y - radius)%float
                 (radius * 2)%float (radius * 2)%float c in
      Some (Ctx.restore c)
  end.

Definition erase (env : Env) (e : MouseEvent) (s : State) : State :=
  if negb (Tool_eqb (tool s) eraser) then s
  else
    match contextRef s, canvasRef s with
    | Some c, Some _ =>
        let p := canvasPoint env e s in
        let radius := eraseRadius s in
        match eraseCircle (px p) (py p) radius c with
        | None =>
            (* the exception leaves the handler after [save] and
               [beginPath]; no collection is updated *)
            setContextRef (Some (Ctx.beginPath (Ctx.save c))) s
        | Some c' =>
            let s := setContextRef (Some c') s in
            let s := setStickers
              (filter (fun o => gt (stickerDistance p o) radius)) s in
            let s := setTextBoxes
              (filter (fun o => gt (textBoxDistance p o) radius)) s in
            setImages
              (filter (fun o => gt (imageDistance p o) radius)) s
        end
    | _, _ => s
    end.

(* ================================================================= *)
(** ** Click placement (lines 254-297) *)

Definition handleCanvasClick (env : Env) (e : MouseEvent) (s : State) : State :=
  match canvasRef s with
  | None => s
  | Some _ =>
      let p := canvasPoint env e s in
      if Tool_eqb (tool s) sticker && truthy (selectedSticker s) then
        let new := Sticker.mk ("sticker-" ++ toString (now env))%string
                     (selectedSticker s) (px p) (py p)
                     STICKER_DEFAULT_SIZE STICKER_DEFAULT_SIZE in
        setTool none
          (setSelectedSticker "" (setStickers (fun prev => prev ++ [new]) s))
      else if Tool_eqb (tool s) text then
        let newId := ("text-" ++ toString (now env))%string in
        let new := TextBox.mk newId (px p) (py p) 150%float 50%float "" in
        setTool none
          (setActiveTextBox (Some newId)
             (setTextBoxes (fun prev => prev ++ [new]) s))
      else if Tool_eqb (tool s) eraser then erase env e s
      else s
  end.

(** The canvas' [onMouseMove] (lines 375-378). *)
Definition onMouseMove (env : Env) (e : MouseEvent) (s : State) : State :=
  let s := if isDrawing s && Tool_eqb (tool s) pen then draw env e s else s in
  if Tool_eqb (tool s) eraser then erase env e s else s.

(* ================================================================= *)
(** ** Clipboard images (lines 300-340) *)

(** A pasted file as the host sees it: the object URL that
    [URL.createObjectURL] mints for it, and the natural size the image
    decoder reports for it ([None]: it does not decode, [onload] never
    fires). *)
Record File :=
  { objectURL : string; natural : option (number * number) }.

Record DataTransferItem := { item_type : string; getAsFile : option File }.

(** A temporary image element waiting for its [onload]; the callback is a
    closure over the [scale] of the render that installed the paste
    listener. *)
Record PendingImage :=
  { pending_url : string;
    pending_scale : number;
    pending_natural : option (number * number) }.

(** [handlePaste]: one temporary image per image item that has a file.
    [None] stands for an event without [clipboardData]. *)
Definition handlePaste (items : option (list DataTransferItem)) (s : State)
  : list PendingImage :=
  match items with
  | None => []
  | Some items =>
      flat_map
        (fun it =>
           if includes "image" (item_type it) then
             match getAsFile it with
             | Some blob =>
                 [ {| pending_url := objectURL blob;
                      pending_scale := scale s;
                      pending_natural := natural blob |} ]
             | None => []
             end
           else [])
        items
  end.

(** [img.onload] for the image of natural size [img_width] x [img_height]. *)
Definition imgOnload (env : Env) (captured_scale : number)
    (img_width img_height : number) (url : string) (s : State) : State :=
  let aspectRatio := (img_width / img_height)%float in
  let width := 300%float in
  let height := (width / aspectRatio)%float in
  let new := Image.mk ("img-" ++ toString (now env))%string
               (innerWidth env / 2 / captured_scale - width / 2)%float
               (innerHeight env / 2 / captured_scale - height / 2)%float
               width height url in
  setImages (fun prev => prev ++ [new]) s.

(* ================================================================= *)
(** ** Zoom (lines 343-349) *)

Inductive Direction := dir_in | dir_out.

(** The literal [0.1], i.e. the binary64 value nearest to one tenth. *)
Definition zoomStep : number := 0x1.999999999999ap-4%float.

(** The updater [prev => ...] handed to [setScale]. *)
Definition zoomUpdater (direction : Direction) (prev : number) : number :=
  match direction with
  | dir_in => if lt prev 3%float then (prev + zoomStep)%float else prev
  | dir_out => if gt prev 0.5%float then (prev - zoomStep)%float else prev
  end.

Definition handleZoom (direction : Direction) (s : State) : State :=
  setScale (zoomUpdater direction) s.

(* ================================================================= *)
(** ** Drag, resize and edit callbacks of the placed objects
       (lines 396-417, 440-475, 499-520) *)

Definition stickerDragStop (id : string) (d_x d_y : number) : State -> State :=
  setStickers
    (map (fun s => if String.eqb (Sticker.id s) id
                   then Sticker.mk (Sticker.id s) (Sticker.type s) d_x d_y
                          (Sticker.width s) (Sticker.height s)
                   else s)).

(** [style_width] and [style_height] are [ref.style.width] and
    [ref.style.height] of the resized element. *)
Definition stickerResizeStop (id : string) (style_width style_height : string)
    (position_x position_y : number) : State -> State :=
  setStickers
    (map (fun s => if String.eqb (Sticker.id s) id
                   then Sticker.mk (Sticker.id s) (Sticker.type s)
                          position_x position_y
                          (parseInt style_width) (parseInt style_height)
                   else s)).

Definition textBoxDragStop (id : string) (d_x d_y : number) : State -> State :=
  setTextBoxes
    (map (fun t => if String.eqb (TextBox.id t) id
                   then TextBox.mk (TextBox.id t) d_x d_y
                          (TextBox.width t) (TextBox.height t)
                          (TextBox.content t)
                   else t)).

Definition textBoxResizeStop (id : string) (style_width style_height : string)
    (position_x position_y : number) : State -> State :=
  setTextBoxes
    (map (fun t => if String.eqb (TextBox.id t) id
                   then TextBox.mk (TextBox.id t) position_x position_y
                          (parseInt style_width) (parseInt style_height)
                          (TextBox.content t)
                   else t)).

Definition textBoxChange (id : string) (value : string) : State -> State :=
  setTextBoxes
    (map (fun t => if String.eqb (TextBox.id t) id
                   then TextBox.mk (TextBox.id t) (TextBox.x t) (TextBox.y t)
                          (TextBox.width t) (TextBox.height t) value
                   else t)).

Definition imageDragStop (id : string) (d_x d_y : number) : State -> State :=
  setImages
    (map (fun img => if String.eqb (Image.id img) id
                     then Image.mk (Image.id img) d_x d_y
                            (Image.width img) (Image.height img)
                            (Image.url img)
                     else img)).

Definition imageResizeStop (id : string) (style_width style_height : string)
    (position_x position_y : number) : State -> State :=
  setImages
    (map (fun img => if String.eqb (Image.id img) id
                     then Image.mk (Image.id img) position_x position_y
                            (parseInt style_width) (parseInt style_height)
                            (Image.url img)
                     else img)).

(* ================================================================= *)
(** ** Events and runs *)

Inductive Event :=
| ToolButton (t : Tool)
| StickerPicked (type : string)
| ColorPicked (color : string)
| PenSizeInput (value : string)
| MouseDown (e : MouseEvent)
| MouseMove (e : MouseEvent)
| MouseUp
| MouseLeave
| Click (e : MouseEvent)
| Paste (items : option (list DataTransferItem))
| ImageLoaded (k : nat)
| ZoomButton (d : Direction)
| StickerDragStop (id : string) (d_x d_y : number)
| StickerResizeStop (id style_width style_height : string) (x y : number)
| TextBoxDragStop (id : string) (d_x d_y : number)
| TextBoxResizeStop (id style_width style_height : string) (x y : number)
| TextBoxChange (id value : string)
| TextBoxClick (id : string)
| ImageDragStop (id : string) (d_x d_y : number)
| ImageResizeStop (id style_width style_height : string) (x y : number).

(** The component together with the temporary images still loading. *)
Record World := { app : State; loading : list PendingImage }.

Definition onApp (f : State -> State) (w : World) : World :=
  {| app := f (app w); loading := loading w |}.

Definition step (env : Env) (ev : Event) (w : World) : World :=
  match ev with
  | ToolButton t => onApp (handleToolChange t) w
  | StickerPicked type => onApp (pickSticker type) w
  | ColorPicked color => onApp (pickColor color) w
  | PenSizeInput value => onApp (changePenSize value) w
  | MouseDown e => onApp (startDrawing env e) w
  | MouseMove e => onApp (onMouseMove env e) w
  | MouseUp | MouseLeave => onApp stopDrawing w
  | Click e => onApp (handleCanvasClick env e) w
  | Paste items =>
      {| app := app w; loading := loading w ++ handlePaste items (app w) |}
  | ImageLoaded k =>
      match nth_error (loading w) k with
      | Some p =>
          match pending_natural p with
          | Some (img_width, img_height) =>
              {| app := imgOnload env (pending_scale p) img_width img_height
                          (pending_url p) (app w);
                 loading := firstn k (loading w) ++ skipn (S k) (loading w) |}
          | None => w
          end
      | None => w
      end
  | ZoomButton d => onApp (handleZoom d) w
  | StickerDragStop id d_x d_y => onApp (stickerDragStop id d_x d_y) w
  | StickerResizeStop id sw sh x y => onApp (stickerResizeStop id sw sh x y) w
  | TextBoxDragStop id d_x d_y => onApp (textBoxDragStop id d_x d_y) w
  | TextBoxResizeStop id sw sh x y => onApp (textBoxResizeStop id sw sh x y) w
  | TextBoxChange id value => onApp (textBoxChange id value) w
  | TextBoxClick id => onApp (setActiveTextBox (Some id)) w
  | ImageDragStop id d_x d_y => onApp (imageDragStop id d_x d_y) w
  | ImageResizeStop id sw sh x y => onApp (imageResizeStop id sw sh x y) w
  end.

(** Events are handled one at a time, in delivery order. *)
Fixpoint run (evs : list (Env * Event)) (w : World) : World :=
  match evs with
  | [] => w
  | (env, ev) :: rest => run rest (step env ev w)
  end.

Definition initialWorld : World := {| app := initialState; loading := [] |}.

(** [n] presses of a zoom button. *)
Fixpoint zoomTimes (n : nat) (d : Direction) (s : State) : State :=
  match n with
  | O => s
  | S k => zoomTimes k d (handleZoom d s)
  end.

(** Any sequence of presses of the two zoom buttons. *)
Definition zoomRun (ds : list Direction) (s : State) : State :=
  fold_left (fun s d => handleZoom d s) ds s.

(** The zoom values met when zooming in twenty times, or out six times,
    from the default. *)
Definition zoomLevels : list number :=
  map (fun n => scale (zoomTimes n dir_in initialState)) (seq 0 21)
  ++ map (fun n => scale (zoomTimes n dir_out initialState)) (seq 1 6).

(** A window of 1000 x 800 with the canvas at its origin, at clock [t]. *)
Definition env0 (t : Z) : Env :=
  {| rect_left := 0%float; rect_top := 0%float;
     innerWidth := 1000%float; innerHeight := 800%float; now := t |}.

(** The mounted component: canvas attached, context obtained. *)
Definition mounted : State := mountCanvas (env0 0) (Some Ctx.fresh) initialState.

(* ================================================================= *)
(** ** Concrete states used in the scenarios *)

(** A pointer event at client position [(x, y)] with button mask [held]. *)
Definition pointerAt (x y : number) (held : Z) : MouseEvent :=
  {| clientX := x; clientY := y; buttons := held |}.

(** Scenarios A and B of the specification: a default 50 x 50 sticker at
    (100, 100), eraser selected, pen size 15 (radius 30). *)
Definition scenarioSticker : StickerType :=
  Sticker.mk "sticker-1" "fas fa-heart" 100%float 100%float
    STICKER_DEFAULT_SIZE STICKER_DEFAULT_SIZE.

Definition scenarioState : State :=
  setStickers (fun _ => [scenarioSticker])
    (changePenSize "15" (handleToolChange eraser mounted)).

(* ================================================================= *)
(** ** Vocabulary for the frame properties of drag and resize *)

(** [l'] is [l] with every object whose id is [id] replaced by an object
    related to it by [changed], position by position, and every other
    object kept as it is. *)
Definition updatedAt (A : Type) (ident : A -> string) (changed : A -> A -> Prop)
    (id : string) (l l' : list A) : Prop :=
  List.length l' = List.length l /\
  forall i o, nth_error l i = Some o ->
    exists o', nth_error l' i = Some o' /\
      (if String.eqb (ident o) id then changed o o' else o' = o).

(** No object of [l] has the id [id]. *)
Definition absent (A : Type) (ident : A -> string) (id : string) (l : list A)
  : Prop :=
  forall o, In o l -> ident o <> id.










(** The mounted component with nothing loading. *)
Definition mountedWorld : World := {| app := mounted; loading := [] |}.

(** A clipboard item holding a PNG file that decodes to [w] x [h]. *)
Definition pastedPng (u : string) (w h : number) : DataTransferItem :=
  {| item_type := "image/png";
     getAsFile := Some {| objectURL := u; natural := Some (w, h) |} |}.

(** One paste event carrying two images, both decoded within the same
    millisecond. *)
Definition doublePaste : list (Env * Event) :=
  [ (env0 1700000000000,
     Paste (Some [pastedPng "blob:a" 600%float 400%float;
                  pastedPng "blob:b" 64%float 64%float]));
    (env0 1700000000001, ImageLoaded 0);
    (env0 1700000000001, ImageLoaded 0) ].

(** Scenario C: a 600 x 400 image pasted into a 1000 x 800 window. *)
Definition scenarioPaste : list (Env * Event) :=
  [ (env0 1700000000000, Paste (Some [pastedPng "blob:a" 600%float 400%float]));
    (env0 1700000000005, ImageLoaded 0) ].

(** The sticker tool chosen from the toolbar, no sticker kind picked. *)
Definition stickerToolOnly : State := handleToolChange sticker mounted.

(** Scenario E: the pen selected, a stroke begun at (10, 10) and extended
    through three points. *)
Definition strokeInProgress : State :=
  draw (env0 0) (pointerAt 40%float 10%float 1%Z)
    (draw (env0 0) (pointerAt 30%float 20%float 1%Z)
       (draw (env0 0) (pointerAt 20%float 20%float 1%Z)
          (startDrawing (env0 0) (pointerAt 10%float 10%float 1%Z)
             (handleToolChange pen mounted)))).

(* ================================================================= *)
(** ** Vocabulary for the ids of a collection *)

(** How one event may change a collection, as far as ids are concerned:
    keep it, drop some objects, rewrite objects keeping their ids, or append
    one object whose id is [prefix] followed by the clock reading. *)
Inductive evolved (A : Type) (ident : A -> string) (prefix : string) (clock : Z)
  : list A -> list A -> Prop :=
| ev_same l : evolved ident prefix clock l l
| ev_filter p l : evolved ident prefix clock l (filter p l)
| ev_map f l :
    (forall o, ident (f o) = ident o) ->
    evolved ident prefix clock l (map f l)
| ev_insert o l :
    ident o = (prefix ++ toString clock)%string ->
    evolved ident prefix clock l (l ++ [o]).

(** The ids of [l] are pairwise distinct and each is [prefix] followed by a
    clock reading earlier than [bound]. *)
Definition idsFresh (A : Type) (ident : A -> string) (prefix : string) (bound : Z)
    (l : list A) : Prop :=
  NoDup (map ident l) /\
  Forall (fun o => exists t, (t < bound)%Z /\
                             ident o = (prefix ++ toString t)%string) l.

Definition allIdsFresh (bound : Z) (s : State) : Prop :=
  idsFresh Sticker.id "sticker-" bound (stickers s)
  /\ idsFresh TextBox.id "text-" bound (textBoxes s)
  /\ idsFresh Image.id "img-" bound (images s).

(** The clock readings of the events are at least [bound] and strictly
    increasing. *)
Fixpoint clockAdvances (bound : Z) (evs : list (Env * Event)) : Prop :=
  match evs with
  | [] => True
  | (env, _) :: rest =>
      (bound <= now env)%Z /\ clockAdvances (now env + 1) rest
  end.


(** All three collections evolve from [s] to [s'] at clock reading [clock]. *)
Definition collectionsEvolved (clock : Z) (s s' : State) : Prop :=
  evolved Sticker.id "sticker-" clock (stickers s) (stickers s')
  /\ evolved TextBox.id "text-" clock (textBoxes s) (textBoxes s')
  /\ evolved Image.id "img-" clock (images s) (images s').

(* ================================================================= *)
(** ** Runs of the component from its first render *)

(** The world right after the first render: the mount effect has run, and
    [getContext] either returned a fresh context ([ok]) or null. *)
Definition startWorld (env : Env) (ok : bool) : World :=
  {| app := mountCanvas env (if ok then Some Ctx.fresh else None) initialState;
     loading := [] |}.

(** The drawing state of the context agrees with the component: strokes
    use the selected colour and pen size, fills are white, nothing is
    clipped. *)
Definition styleSynced (s : State) : Prop :=
  match contextRef s with
  | None => True
  | Some c =>
      Ctx.strokeStyle (Ctx.draw c) = selectedColor s
      /\ Ctx.lineWidth (Ctx.draw c) = penSize s
      /\ Ctx.fillStyle (Ctx.draw c) = "white"%string
      /\ Ctx.lineCap (Ctx.draw c) = "round"%string
      /\ Ctx.lineJoin (Ctx.draw c) = "round"%string
      /\ Ctx.clip (Ctx.draw c) = []
  end.

(** The two halves of the stroke state agree, and a stroke in progress has
    a canvas and a context to draw on. *)
Definition strokeConsistent (s : State) : Prop :=
  match lastPosition s with
  | Some _ => isDrawing s = true /\ contextRef s <> None /\ canvasRef s <> None
  | None => isDrawing s = false
  end.

(** The path of a stroke begun at [p0] and extended through [ps]. *)
Definition polyline (p0 : Point) (ps : list Point) : Ctx.Path :=
  Ctx.MoveTo (px p0) (py p0) :: map (fun p => Ctx.LineTo (px p) (py p)) ps.

(** A pen gesture: pointer-down at the first event, then pointer moves. *)
Definition penGesture (down : Env * MouseEvent) (moves : list (Env * MouseEvent))
    (s : State) : State :=
  fold_left (fun s em => onMouseMove (fst em) (snd em) s) moves
    (startDrawing (fst down) (snd down) s).

(** Whether a call of [erase] gets past its guards and the [arc] call. *)
Definition eraseApplies (s : State) : bool :=
  Tool_eqb (tool s) eraser
  && match contextRef s, canvasRef s with
     | Some _, Some _ => true
     | _, _ => false
     end
  && negb (lt (eraseRadius s) 0%float).

(** How an event may change a collection when nothing is removed: keep it,
    rewrite objects keeping their ids, or append one object. *)
Inductive kept (A : Type) (ident : A -> string) : list A -> list A -> Prop :=
| kept_same l : kept ident l l
| kept_map f l : (forall o, ident (f o) = ident o) -> kept ident l (map f l)
| kept_insert o l : kept ident l (l ++ [o]).


(** The drawing state in force on the canvas, if there is a context. *)
Definition ctxDraw (s : State) : option Ctx.DrawState :=
  option_map Ctx.draw (contextRef s).


(** [o'] is [o] with the text [value]: nothing but the content differs. *)
Definition textBoxEdited (value : string) (o o' : TextBoxType) : Prop :=
  TextBox.content o' = value /\
  TextBox.id o' = TextBox.id o /\
  TextBox.x o' = TextBox.x o /\ TextBox.y o' = TextBox.y o /\
  TextBox.width o' = TextBox.width o /\ TextBox.height o' = TextBox.height o.

(** A clipboard item holding plain text. *)
Definition pastedText : DataTransferItem :=
  {| item_type := "text/plain"; getAsFile := None |}.


(** Whether an event, in state [s], may paint on the surface: a pointer
    move with the eraser or during a pen stroke, or a click with the
    eraser. *)
Definition mayPaint (ev : Event) (s : State) : bool :=
  match ev with
  | MouseMove _ =>
      Tool_eqb (tool s) eraser || (Tool_eqb (tool s) pen && isDrawing s)
  | Click _ => Tool_eqb (tool s) eraser
  | _ => false
  end.

(** The events that never change a collection. *)
Definition leavesObjects (ev : Event) : bool :=
  match ev with
  | ToolButton _ | StickerPicked _ | ColorPicked _ | PenSizeInput _
  | MouseDown _ | MouseUp | MouseLeave | Paste _ | ZoomButton _
  | TextBoxClick _ => true
  | _ => false
  end.

(** The mouse cursor shown over the canvas (lines 357-366). *)
Definition cursor (s : State) : string :=
  if Tool_eqb (tool s) pen then "crosshair"
  else if Tool_eqb (tool s) eraser then "cell"
  else if Tool_eqb (tool s) sticker && truthy (selectedSticker s) then "copy"
  else if Tool_eqb (tool s) text then "text"
  else "default".


(** Paste events and image loads: the events that read or change the list
    of images still loading. *)
Definition isLoadEvent (ev : Event) : bool :=
  match ev with
  | Paste _ | ImageLoaded _ => true
  | _ => false
  end.

(* ================================================================= *)
(** * Properties *)

(** Closed facts are settled by evaluation, one conjunct at a time. *)
Ltac evaluate :=
  cbv zeta;
  repeat match goal with |- _ /\ _ => split end;
  vm_compute; reflexivity.

(** ** Number parsing, on the strings a resized element reports *)

Example parseInt_px : parseInt "120px" = 120%float.
Proof. reflexivity. Qed.

Example parseInt_auto : PrimFloat.is_nan (parseInt "auto") = true.
Proof. reflexivity. Qed.

Example parseInt_hex : parseInt "  0x1F" = 31%float.
Proof. reflexivity. Qed.

Example parseInt_negative : parseInt "-5px" = (-5)%float.
Proof. reflexivity. Qed.

(** ** Comparisons of binary64 numbers *)



(** ** The eraser *)

Section Erase.

Variables (env : Env) (e : MouseEvent) (s : State).
Variables (c0 : Ctx.t) (canvas : HTMLCanvasElement).

Hypothesis tool_is_eraser : tool s = eraser.
Hypothesis context_ready : contextRef s = Some c0.
Hypothesis canvas_mounted : canvasRef s = Some canvas.
(** [arc] accepts the radius: the pen size is not negative. *)
Hypothesis radius_accepted : lt (eraseRadius s) 0%float = false.

Let c := canvasPoint env e s.
Let r := eraseRadius s.

Lemma eraseCircle_accepted :
  eraseCircle (px c) (py c) r c0 =
  Some (Ctx.restore
          (Ctx.fillRect (px c - r)%float (py c - r)%float
             (r * 2)%float (r * 2)%float
             (Ctx.set_fillStyle "white"
                (Ctx.doClip
                   (Ctx.addPath
                      (Ctx.Arc (px c) (py c) r 0%float (Math_PI * 2)%float)
                      (Ctx.beginPath (Ctx.save c0))))))).
Proof.
  unfold eraseCircle, Ctx.arc. fold r in radius_accepted.
  rewrite radius_accepted. reflexivity.
Qed.




(** The disc cleared on the canvas has the same center and radius. *)
Lemma erase_surface :
  exists d,
    surface (erase env e s) =
      surface s ++ [Ctx.FillRect (px c - r)%float (py c - r)%float
                      (r * 2)%float (r * 2)%float d]
    /\ Ctx.fillStyle d = "white"%string
    /\ Ctx.clip d =
         [Ctx.Arc (px c) (py c) r 0%float (Math_PI * 2)%float]
           :: Ctx.clip (Ctx.draw c0).
Proof.
  unfold erase. rewrite tool_is_eraser, context_ready, canvas_mounted.
  simpl negb. cbv iota. fold c r. rewrite eraseCircle_accepted.
  unfold surface. rewrite context_ready. simpl.
  eexists. split; [reflexivity|]. split; reflexivity.
Qed.


End Erase.


Example scenario_A :
  stickers (erase (env0 0) (pointerAt 120%float 120%float 1%Z) scenarioState)
  = [].
Proof. reflexivity. Qed.

Example scenario_B :
  stickers (erase (env0 0) (pointerAt 200%float 200%float 1%Z) scenarioState)
  = [scenarioSticker].
Proof. reflexivity. Qed.

(** ** Updating the objects that carry a given id *)

Section MapIf.

Variables (A : Type) (ident : A -> string) (f : A -> A) (id : string).

Let upd := map (fun o => if String.eqb (ident o) id then f o else o).

Lemma updatedAt_map (changed : A -> A -> Prop) (l : list A) :
  (forall o, ident o = id -> changed o (f o)) ->
  updatedAt ident changed id l (upd l).
Proof.
  intros Hf. split.
  - apply length_map.
  - intros i o Hi. unfold upd. rewrite nth_error_map, Hi. simpl.
    eexists. split; [reflexivity|].
    destruct (String.eqb (ident o) id) eqn:E.
    + apply Hf. now apply String.eqb_eq.
    + reflexivity.
Qed.

Lemma map_absent (l : list A) : absent ident id l -> upd l = l.
Proof.
  unfold absent, upd. induction l as [|o l IH]; intros Hl; simpl.
  - reflexivity.
  - destruct (String.eqb (ident o) id) eqn:E.
    + apply String.eqb_eq in E. exfalso. apply (Hl o); [now left | exact E].
    + f_equal. apply IH. intros o' Ho'. apply Hl. now right.
Qed.


End MapIf.

(** ** Drag: [moveTo] *)


Lemma setTextBoxes_same (f : list TextBoxType -> list TextBoxType) (s : State) :
  f (textBoxes s) = textBoxes s -> setTextBoxes f s = s.
Proof. destruct s. unfold setTextBoxes. simpl. intros ->. reflexivity. Qed.




(** ** Resize: [resizeTo] *)




(** ** Object ids *)

(** The decimal rendering of the clock is injective, so two ids of one
    collection differ as soon as the clock readings differ. *)
Lemma toString_inj (a b : Z) : toString a = toString b -> a = b.
Proof.
  unfold toString. intros H.
  apply DecimalZ.to_int_inj.
  assert (Some (Z.to_int a) = Some (Z.to_int b)) as E.
  { rewrite <- (NilEmpty.isi (Z.to_int a)), <- (NilEmpty.isi (Z.to_int b)).
    now rewrite H. }
  now injection E.
Qed.

Lemma append_inj_r (p a b : string) :
  (p ++ a)%string = (p ++ b)%string -> a = b.
Proof.
  induction p as [|ch p IH]; simpl; intros H.
  - exact H.
  - injection H as H. now apply IH.
Qed.

Lemma id_inj (prefix : string) (a b : Z) :
  (prefix ++ toString a)%string = (prefix ++ toString b)%string -> a = b.
Proof. intros H. apply toString_inj. exact (append_inj_r _ _ _ H). Qed.

(** *** What the clock does guarantee *)

Section Fresh.

Variables (A : Type) (ident : A -> string) (prefix : string).

Lemma idsFresh_weaken (b b' : Z) (l : list A) :
  (b <= b')%Z -> idsFresh ident prefix b l -> idsFresh ident prefix b' l.
Proof.
  intros Hb [Hnd Hall]. split; [exact Hnd|].
  apply Forall_impl with (2 := Hall).
  intros o (t & Ht & E). exists t. split; [lia | exact E].
Qed.

Lemma NoDup_map_filter (p : A -> bool) (l : list A) :
  NoDup (map ident l) -> NoDup (map ident (filter p l)).
Proof.
  induction l as [|o l IH]; simpl; intros H; [exact H|].
  inversion H as [|i l' Hnotin Hnd]; subst.
  destruct (p o); simpl; [|now apply IH].
  constructor; [|now apply IH].
  intros Hin. apply Hnotin.
  apply in_map_iff in Hin. destruct Hin as (o' & E & Ho').
  apply filter_In in Ho'. apply in_map_iff. exists o'. tauto.
Qed.

Lemma map_ident_map (f : A -> A) (l : list A) :
  (forall o, ident (f o) = ident o) -> map ident (map f l) = map ident l.
Proof. intros Hf. rewrite map_map. apply map_ext. exact Hf. Qed.

(** One event at a clock reading not below the bound keeps the ids fresh,
    for the bound just above that reading. *)
Lemma idsFresh_evolved (b clock : Z) (l l' : list A) :
  (b <= clock)%Z ->
  evolved ident prefix clock l l' ->
  idsFresh ident prefix b l -> idsFresh ident prefix (clock + 1) l'.
Proof.
  intros Hb Hev Hl.
  apply idsFresh_weaken with (b' := (clock + 1)%Z) in Hl as Hw; [|lia].
  destruct Hev as [l|p l|f l Hf|o l Ho].
  - exact Hw.
  - destruct Hw as [Hnd Hall]. split.
    + now apply NoDup_map_filter.
    + apply Forall_forall. intros o Ho. apply filter_In in Ho.
      exact (proj1 (Forall_forall _ _) Hall o (proj1 Ho)).
  - destruct Hw as [Hnd Hall]. split.
    + now rewrite map_ident_map.
    + apply Forall_map. apply Forall_impl with (2 := Hall).
      intros o H. now rewrite Hf.
  - destruct Hl as [Hnd Hall]. destruct Hw as [_ Hall']. split.
    + rewrite map_app. simpl. apply NoDup_app.
      * exact Hnd.
      * repeat constructor. intros [].
      * intros i Hi [Hio|[]]. subst i.
        apply in_map_iff in Hi. destruct Hi as (o' & E & Ho').
        destruct (proj1 (Forall_forall _ _) Hall o' Ho') as (t & Ht & Et).
        rewrite Ho, Et in E. apply append_inj_r, toString_inj in E. lia.
    + apply Forall_app. split; [exact Hall'|].
      constructor; [|constructor]. exists clock. split; [lia | exact Ho].
Qed.

End Fresh.

Ltac evolve :=
  cbn;
  first
    [ apply ev_same
    | apply ev_filter
    | apply ev_insert; reflexivity
    | apply ev_map; intros ?o; cbn;
      match goal with
      | |- context [if ?b then _ else _] => destruct b
      end; reflexivity ].

Ltac evolve_all := split; [evolve | split; evolve].

Ltac split_cases :=
  repeat match goal with
    | |- context [match ?x with _ => _ end] => destruct x eqn:?
    end.

Lemma erase_evolved (env : Env) (e : MouseEvent) (s : State) :
  collectionsEvolved (now env) s (erase env e s).
Proof. unfold collectionsEvolved, erase. split_cases; evolve_all. Qed.

Lemma draw_evolved (env : Env) (e : MouseEvent) (s : State) :
  collectionsEvolved (now env) s (draw env e s).
Proof. unfold collectionsEvolved, draw. split_cases; evolve_all. Qed.

Lemma draw_tool (env : Env) (e : MouseEvent) (s : State) :
  tool (draw env e s) = tool s.
Proof. unfold draw. split_cases; reflexivity. Qed.

Lemma onMouseMove_evolved (env : Env) (e : MouseEvent) (s : State) :
  collectionsEvolved (now env) s (onMouseMove env e s).
Proof.
  unfold onMouseMove.
  destruct (isDrawing s && Tool_eqb (tool s) pen) eqn:E.
  - apply andb_prop in E. destruct E as [_ E].
    rewrite draw_tool. destruct (tool s); try discriminate.
    simpl. apply draw_evolved.
  - destruct (Tool_eqb (tool s) eraser); [apply erase_evolved | evolve_all].
Qed.

Lemma handleCanvasClick_evolved (env : Env) (e : MouseEvent) (s : State) :
  collectionsEvolved (now env) s (handleCanvasClick env e s).
Proof.
  unfold handleCanvasClick.
  destruct (canvasRef s); [|evolve_all].
  destruct (Tool_eqb (tool s) sticker && truthy (selectedSticker s));
    [evolve_all|].
  destruct (Tool_eqb (tool s) text); [evolve_all|].
  destruct (Tool_eqb (tool s) eraser); [apply erase_evolved | evolve_all].
Qed.

(** Every event changes the collections in one of the four ways. *)
Lemma step_evolved (env : Env) (ev : Event) (w : World) :
  collectionsEvolved (now env) (app w) (app (step env ev w)).
Proof.
  destruct ev; cbn [step onApp app];
    try apply onMouseMove_evolved;
    try apply handleCanvasClick_evolved;
    try (unfold collectionsEvolved; evolve_all; fail).
  - unfold collectionsEvolved, handleToolChange. destruct t; evolve_all.
  - unfold collectionsEvolved, pickColor, syncStyle, onContext.
    cbn. split_cases; evolve_all.
  - unfold collectionsEvolved, changePenSize, syncStyle, onContext.
    cbn. split_cases; evolve_all.
  - unfold collectionsEvolved, startDrawing. split_cases; evolve_all.
  - unfold collectionsEvolved, stopDrawing, onContext. split_cases; evolve_all.
  - unfold collectionsEvolved, stopDrawing, onContext. split_cases; evolve_all.
  - unfold collectionsEvolved. split_cases; evolve_all.
Qed.

(** Ids stay pairwise distinct along every run whose clock readings
    strictly increase. *)
Lemma ids_distinct_while_clock_advances
    (evs : list (Env * Event)) (bound : Z) (w : World) :
  clockAdvances bound evs -> allIdsFresh bound (app w) ->
  exists bound', allIdsFresh bound' (app (run evs w)).
Proof.
  revert bound w. induction evs as [|[env ev] evs IH]; intros bound w Hc Hw.
  - exists bound. exact Hw.
  - destruct Hc as [Hb Hc]. cbn [run].
    apply (IH (now env + 1)%Z); [exact Hc|].
    destruct (step_evolved env ev w) as (Es & Et & Ei).
    destruct Hw as (Hs & Ht & Hi).
    split; [|split]; eapply idsFresh_evolved; eassumption.
Qed.

Lemma ids_distinct_from_start (evs : list (Env * Event)) (bound : Z) :
  clockAdvances bound evs ->
  NoDup (map Sticker.id (stickers (app (run evs mountedWorld))))
  /\ NoDup (map TextBox.id (textBoxes (app (run evs mountedWorld))))
  /\ NoDup (map Image.id (images (app (run evs mountedWorld)))).
Proof.
  intros Hc.
  destruct (@ids_distinct_while_clock_advances evs bound mountedWorld Hc)
    as (b & (Hs & _) & (Ht & _) & (Hi & _)).
  - repeat split; constructor.
  - now repeat split.
Qed.

(** C3 fails on the code: the id of a new object is a prefix followed by
    [Date.now()], so two inserts into one collection within the same
    millisecond get the same id.  Here one paste carries two images and
    both load at clock 1700000000001. *)
Theorem pasted_images_share_id :
  map Image.id (images (app (run doublePaste mountedWorld)))
  = ["img-1700000000001"%string; "img-1700000000001"%string]
  /\ map Image.url (images (app (run doublePaste mountedWorld)))
     = ["blob:a"%string; "blob:b"%string]
  /\ ~ NoDup (map Image.id (images (app (run doublePaste mountedWorld)))).
Proof.
  split; [reflexivity|]. split; [reflexivity|].
  change (map Image.id (images (app (run doublePaste mountedWorld))))
    with ["img-1700000000001"%string; "img-1700000000001"%string].
  intros H. inversion H as [|i l Hin _]. apply Hin. now left.
Qed.

(** ** Zoom *)

Lemma handleZoom_scale (d : Direction) (s : State) :
  scale (handleZoom d s) = zoomUpdater d (scale s).
Proof. reflexivity. Qed.

Ltac in_list := repeat first [left; reflexivity | right].

(** The 27 values of [zoomLevels] are closed under both buttons ... *)
Lemma zoomLevels_closed :
  Forall (fun x => forall d, In (zoomUpdater d x) zoomLevels) zoomLevels.
Proof.
  assert (Forall (fun x => In (zoomUpdater dir_in x) zoomLevels
                           /\ In (zoomUpdater dir_out x) zoomLevels)
            zoomLevels) as H.
  { vm_compute. repeat (apply Forall_cons; [split; in_list|]).
    apply Forall_nil. }
  apply Forall_impl with (2 := H). intros x [Hin Hout] [|]; assumption.
Qed.

(** ... so they are all the zoom values the component can reach, *)
Lemma zoom_reachable (ds : list Direction) :
  In (scale (zoomRun ds initialState)) zoomLevels.
Proof.
  assert (forall s, In (scale s) zoomLevels ->
                    In (scale (zoomRun ds s)) zoomLevels) as H.
  { unfold zoomRun. induction ds as [|d ds IH]; intros s Hs; cbn [fold_left].
    - exact Hs.
    - apply IH. rewrite handleZoom_scale.
      exact (proj1 (Forall_forall _ _) zoomLevels_closed _ Hs d). }
  apply H. vm_compute. in_list.
Qed.

(** ... and the zoom stays between 0.40000000000000013 and
    3.0000000000000018, both of which are reached. *)
Lemma zoom_actual_range (ds : list Direction) :
  le 0x1.999999999999cp-2%float (scale (zoomRun ds initialState)) = true
  /\ le (scale (zoomRun ds initialState)) 0x1.8000000000004p+1%float = true.
Proof.
  assert (Forall (fun x => le 0x1.999999999999cp-2%float x = true
                           /\ le x 0x1.8000000000004p+1%float = true)
            zoomLevels) as H.
  { vm_compute. repeat (apply Forall_cons; [split; reflexivity|]).
    apply Forall_nil. }
  exact (proj1 (Forall_forall _ _) H _ (zoom_reachable ds)).
Qed.

(** C4 fails on the code: the steps of 0.1 accumulate rounding error, so
    the guards [prev > 0.5] and [prev < 3] still hold one step too long.
    Five presses of zoom-in from 1 give 1.5000000000000004, not 1.5; five
    presses of zoom-out give 0.5000000000000001, so the sixth press goes to
    0.40000000000000013, below 0.5, where twenty presses end as well; twenty
    presses of zoom-in end at 3.0000000000000018, above 3. *)
Theorem zoom_leaves_range :
  scale initialState = 1%float
  /\ scale (zoomTimes 5 dir_in initialState) = 0x1.8000000000002p+0%float
  /\ PrimFloat.eqb (scale (zoomTimes 5 dir_in initialState)) 1.5%float = false
  /\ scale (zoomTimes 5 dir_out initialState) = 0x1.0000000000001p-1%float
  /\ scale (zoomTimes 6 dir_out initialState) = 0x1.999999999999cp-2%float
  /\ scale (zoomTimes 20 dir_out initialState) = 0x1.999999999999cp-2%float
  /\ lt (scale (zoomTimes 20 dir_out initialState)) 0.5%float = true
  /\ scale (zoomTimes 20 dir_in initialState) = 0x1.8000000000004p+1%float
  /\ gt (scale (zoomTimes 20 dir_in initialState)) 3%float = true.
Proof. evaluate. Qed.

(** ** Pointer moves with the eraser selected *)

(** The move handler runs the eraser whenever the eraser is the tool; which
    buttons are held plays no part. *)
Lemma onMouseMove_eraser (env : Env) (e : MouseEvent) (s : State) :
  tool s = eraser -> onMouseMove env e s = erase env e s.
Proof.
  intros Ht. unfold onMouseMove. rewrite Ht. simpl.
  rewrite andb_false_r. rewrite Ht. reflexivity.
Qed.


(** ** Pasted images *)

(** C6. The image inserted for a pasted payload of natural size
    [img_width] x [img_height], in a window of [innerWidth] x [innerHeight]
    at zoom [z], is appended to the collection with width 300, height
    [300 / (img_width / img_height)], [x = innerWidth / 2 / z - width / 2]
    and [y = innerHeight / 2 / z - height / 2], where [z] is the zoom at the
    time of the paste; a 600 x 400 image pasted
    into a 1000 x 800 window at zoom 1 is inserted with width 300, height
    200, x 350 and y 300. *)
Theorem pasted_image_geometry
    (env : Env) (z img_width img_height : number) (url : string) (s : State) :
  (exists o,
      images (imgOnload env z img_width img_height url s) = images s ++ [o]
      /\ Image.width o = 300%float
      /\ Image.height o = (300 / (img_width / img_height))%float
      /\ Image.x o = (innerWidth env / 2 / z - Image.width o / 2)%float
      /\ Image.y o = (innerHeight env / 2 / z - Image.height o / 2)%float
      /\ Image.url o = url)
  /\ (forall env_paste,
        app (run [(env_paste, Paste (Some [pastedPng url img_width img_height]));
                  (env, ImageLoaded 0)]
               {| app := s; loading := [] |})
        = imgOnload env (scale s) img_width img_height url s)
  /\ scale mounted = 1%float
  /\ images (app (run scenarioPaste mountedWorld))
     = [Image.mk "img-1700000000005" 350%float 300%float 300%float 200%float
          "blob:a"].
Proof.
  split; [|split; [|split; reflexivity]].
  - eexists. split; [reflexivity|]. repeat split.
  - intros env_paste. reflexivity.
Qed.

(** ** Strokes *)

Lemma closePath_bitmap (c : Ctx.t) : Ctx.bitmap (Ctx.closePath c) = Ctx.bitmap c.
Proof. unfold Ctx.closePath. destruct (Ctx.path c); reflexivity. Qed.

(** Ending a stroke paints nothing. *)
Lemma stopDrawing_surface (s : State) : surface (stopDrawing s) = surface s.
Proof.
  unfold stopDrawing, onContext, surface.
  destruct (contextRef s) as [c|] eqn:E; simpl.
  - apply closePath_bitmap.
  - rewrite E. reflexivity.
Qed.

Lemma stopDrawing_stroke_state (s : State) :
  isDrawing (stopDrawing s) = false /\ lastPosition (stopDrawing s) = None.
Proof. split; reflexivity. Qed.

Lemma stopDrawing_frame (s : State) :
  tool (stopDrawing s) = tool s
  /\ stickers (stopDrawing s) = stickers s
  /\ textBoxes (stopDrawing s) = textBoxes s
  /\ images (stopDrawing s) = images s
  /\ selectedSticker (stopDrawing s) = selectedSticker s.
Proof.
  unfold stopDrawing, onContext.
  destruct (contextRef s); repeat split; reflexivity.
Qed.

(** C8. Two calls of [stopDrawing] in a row leave the same stroke state
    (in-progress flag, last point) and the same surface as one call, and a
    call with no stroke active changes neither the stroke state nor the
    surface nor any collection. *)
Theorem stopDrawing_idempotent (s : State) :
  (isDrawing (stopDrawing (stopDrawing s)) = isDrawing (stopDrawing s)
   /\ lastPosition (stopDrawing (stopDrawing s)) = lastPosition (stopDrawing s)
   /\ surface (stopDrawing (stopDrawing s)) = surface (stopDrawing s))
  /\ (isDrawing s = false -> lastPosition s = None ->
      isDrawing (stopDrawing s) = isDrawing s
      /\ lastPosition (stopDrawing s) = lastPosition s
      /\ surface (stopDrawing s) = surface s
      /\ stickers (stopDrawing s) = stickers s
      /\ textBoxes (stopDrawing s) = textBoxes s
      /\ images (stopDrawing s) = images s).
Proof.
  split.
  - split; [reflexivity|]. split; [reflexivity|]. apply stopDrawing_surface.
  - intros Hd Hl. rewrite Hd, Hl.
    split; [reflexivity|]. split; [reflexivity|].
    split; [apply stopDrawing_surface|].
    destruct (stopDrawing_frame s) as (_ & Hs & Ht & Hi & _).
    now rewrite Hs, Ht, Hi.
Qed.

Lemma stopDrawing_idempotent_witness :
  surface (stopDrawing mounted) = surface mounted.
Proof.
  destruct (stopDrawing_idempotent mounted) as [_ Hnoop].
  apply Hnoop; reflexivity.
Defined.

(** [draw] returns at its guard unless a stroke is in progress. *)
Lemma draw_guard (env : Env) (e : MouseEvent) (s : State) :
  isDrawing s = false \/ lastPosition s = None \/ tool s <> pen ->
  draw env e s = s.
Proof.
  unfold draw. intros [H|[H|H]].
  - rewrite H. reflexivity.
  - rewrite H. destruct (negb (isDrawing s) || negb (Tool_eqb (tool s) pen));
      [reflexivity|]. destruct (contextRef s); reflexivity.
  - destruct (tool s); try (now rewrite orb_true_r). now elim H.
Qed.

(** C9. When no stroke is in progress (the in-progress flag is false or
    the last point is absent), [draw] returns the state it was given:
    the surface and every other part of the state are unchanged, and the
    model has no failing path. *)
Theorem draw_without_stroke_is_noop (env : Env) (e : MouseEvent) (s : State) :
  isDrawing s = false \/ lastPosition s = None ->
  draw env e s = s /\ surface (draw env e s) = surface s.
Proof.
  intros H.
  assert (draw env e s = s) as E by (apply draw_guard; tauto).
  split; [exact E | now rewrite E].
Qed.

(** After pointer-up or pointer-leave, and after a switch to another tool,
    the next [draw] does nothing. *)
Lemma draw_after_stop (env : Env) (e : MouseEvent) (s : State) :
  draw env e (stopDrawing s) = stopDrawing s.
Proof. apply draw_guard. left. reflexivity. Qed.

Lemma draw_after_tool_switch (env : Env) (e : MouseEvent) (t : Tool) (s : State) :
  t <> pen -> draw env e (handleToolChange t s) = handleToolChange t s.
Proof.
  intros Ht. apply draw_guard. right. right.
  destruct t; simpl; congruence.
Qed.

Lemma draw_without_stroke_is_noop_witness :
  draw (env0 0) (pointerAt 50%float 50%float 1%Z) (stopDrawing strokeInProgress)
  = stopDrawing strokeInProgress.
Proof.
  destruct (draw_without_stroke_is_noop (env0 0)
              (pointerAt 50%float 50%float 1%Z)
              (stopDrawing strokeInProgress)) as [H _].
  - left. reflexivity.
  - exact H.
Defined.

(** Scenario E: the stroke ends at the last extended point; the surface
    holds the three strokes painted so far, and a further [draw] after the
    end of the stroke or after a tool switch adds nothing. *)
Example scenario_E :
  lastPosition strokeInProgress = Some {| px := 40%float; py := 10%float |}
  /\ List.length (surface strokeInProgress) = 4
  /\ surface (draw (env0 0) (pointerAt 50%float 50%float 1%Z)
                (stopDrawing strokeInProgress))
     = surface strokeInProgress
  /\ surface (draw (env0 0) (pointerAt 50%float 50%float 1%Z)
                (handleToolChange none strokeInProgress))
     = surface strokeInProgress.
Proof. evaluate. Qed.

(** ** Click placement *)

(** C10. A canvas click with the sticker tool active and no sticker kind
    selected returns the state unchanged: no object is inserted into any
    collection, the tool is still the sticker tool, and the surface is
    untouched. *)
Theorem click_without_sticker_kind_is_noop
    (env : Env) (e : MouseEvent) (s : State) :
  tool s = sticker -> selectedSticker s = ""%string ->
  handleCanvasClick env e s = s
  /\ stickers (handleCanvasClick env e s) = stickers s
  /\ textBoxes (handleCanvasClick env e s) = textBoxes s
  /\ images (handleCanvasClick env e s) = images s
  /\ tool (handleCanvasClick env e s) = sticker
  /\ surface (handleCanvasClick env e s) = surface s.
Proof.
  intros Ht Hk.
  assert (handleCanvasClick env e s = s) as E.
  { unfold handleCanvasClick. rewrite Ht, Hk. simpl.
    destruct (canvasRef s); reflexivity. }
  rewrite E. repeat split. exact Ht.
Qed.

Lemma click_without_sticker_kind_is_noop_witness :
  handleCanvasClick (env0 7) (pointerAt 100%float 100%float 0%Z) stickerToolOnly
  = stickerToolOnly.
Proof.
  destruct (click_without_sticker_kind_is_noop (env0 7)
              (pointerAt 100%float 100%float 0%Z) stickerToolOnly)
    as [H _]; [reflexivity | reflexivity | exact H].
Defined.

(** With a kind selected the same click places a sticker and resets the
    tool. *)
Example click_with_sticker_kind :
  let s := handleCanvasClick (env0 7) (pointerAt 100%float 100%float 0%Z)
             (pickSticker "fas fa-heart" stickerToolOnly) in
  stickers s = [Sticker.mk "sticker-7" "fas fa-heart" 100%float 100%float
                  50%float 50%float]
  /\ tool s = none /\ selectedSticker s = ""%string.
Proof. evaluate. Qed.

(* ================================================================= *)
(** * Further properties of the component *)

(** ** Invariants of runs *)

(** A property of the component kept by every event holds along every
    run. *)
Lemma run_invariant (P : State -> Prop) :
  (forall env ev w, P (app w) -> P (app (step env ev w))) ->
  forall evs w, P (app w) -> P (app (run evs w)).
Proof.
  intros Hstep. induction evs as [|[env ev] evs IH]; intros w Hw; cbn [run].
  - exact Hw.
  - apply IH. now apply Hstep.
Qed.

Ltac unfold_handlers :=
  unfold onMouseMove, handleCanvasClick, erase, draw, startDrawing,
    stopDrawing, pickColor, changePenSize, syncStyle, onContext,
    handleToolChange, pickSticker, handleZoom, imgOnload,
    stickerDragStop, stickerResizeStop, textBoxDragStop, textBoxResizeStop,
    textBoxChange, imageDragStop, imageResizeStop.

(** Case analysis on everything a handler branches on. *)
Ltac handler_cases :=
  repeat match goal with
    | |- context [match ?x with _ => _ end] => destruct x eqn:?
    end.

Lemma pickers_step (env : Env) (ev : Event) (w : World) :
  showColorPicker (app w) && showStickerPicker (app w) = false ->
  showColorPicker (app (step env ev w))
  && showStickerPicker (app (step env ev w)) = false.
Proof.
  intros H. destruct ev; cbn [step onApp app]; unfold_handlers;
    handler_cases; cbn; try exact H; reflexivity.
Qed.

(** X1. The colour picker and the sticker picker, which are drawn at the
    same place, are never open together: along every run from the first
    render at most one of [showColorPicker] and [showStickerPicker] is
    true.  Right after a toolbar button the colour picker is open exactly
    for the pen and the sticker picker exactly for the sticker tool. *)
Theorem pickers_never_both_open
    (env : Env) (ok : bool) (evs : list (Env * Event)) :
  (showColorPicker (app (run evs (startWorld env ok)))
   && showStickerPicker (app (run evs (startWorld env ok))) = false)
  /\ (forall env' t,
        let s := app (step env' (ToolButton t) (run evs (startWorld env ok))) in
        showColorPicker s = Tool_eqb t pen
        /\ showStickerPicker s = Tool_eqb t sticker).
Proof.
  split.
  - apply (run_invariant
             (fun s => showColorPicker s && showStickerPicker s = false)).
    + intros env' ev w. apply pickers_step.
    + destruct ok; reflexivity.
  - intros env' t. destruct t; split; reflexivity.
Qed.

(** Only the zoom buttons change the zoom. *)
Lemma scale_step (env : Env) (ev : Event) (w : World) :
  scale (app (step env ev w)) =
  match ev with
  | ZoomButton d => zoomUpdater d (scale (app w))
  | _ => scale (app w)
  end.
Proof.
  destruct ev; cbn [step onApp app]; unfold_handlers; handler_cases;
    reflexivity.
Qed.

(** X13. Along every run of events from the first render the zoom is one
    of the 27 values of [zoomLevels]; it lies between 0.40000000000000013
    and 3.0000000000000018 and is strictly positive, so the conversion of
    pointer positions to canvas space never divides by zero. *)
Theorem zoom_positive_along_runs
    (env : Env) (ok : bool) (evs : list (Env * Event)) :
  In (scale (app (run evs (startWorld env ok)))) zoomLevels
  /\ le 0x1.999999999999cp-2%float (scale (app (run evs (startWorld env ok))))
     = true
  /\ le (scale (app (run evs (startWorld env ok)))) 0x1.8000000000004p+1%float
     = true
  /\ gt (scale (app (run evs (startWorld env ok)))) 0%float = true.
Proof.
  assert (In (scale (app (run evs (startWorld env ok)))) zoomLevels) as Hin.
  { apply (run_invariant (fun s => In (scale s) zoomLevels)).
    - intros env' ev w Hw. rewrite scale_step. destruct ev; try exact Hw.
      exact (proj1 (Forall_forall _ _) zoomLevels_closed _ Hw d).
    - destruct ok; vm_compute; in_list. }
  split; [exact Hin|].
  assert (Forall (fun x => le 0x1.999999999999cp-2%float x = true
                           /\ le x 0x1.8000000000004p+1%float = true
                           /\ gt x 0%float = true)
            zoomLevels) as H.
  { vm_compute. repeat (apply Forall_cons; [repeat split; reflexivity|]).
    apply Forall_nil. }
  exact (proj1 (Forall_forall _ _) H _ Hin).
Qed.

Lemma strokeConsistent_step (env : Env) (ev : Event) (w : World) :
  strokeConsistent (app w) -> strokeConsistent (app (step env ev w)).
Proof.
  unfold strokeConsistent.
  destruct ev; cbn [step onApp app]; unfold_handlers; intros H;
    handler_cases; cbn in *;
    repeat match goal with
      | E : ?x = _, H' : context [match ?x with _ => _ end] |- _ =>
          rewrite E in H'
      end;
    try exact H; try reflexivity;
    try (repeat split; congruence);
    try (destruct H as (Hd & _); rewrite Hd in *; discriminate);
    try congruence;
    try (destruct H as (Hd & Hc & Hv);
         repeat split; first [exact Hd | discriminate | congruence]).
Qed.

(** X12. Along every run from the first render the two halves of the
    stroke state agree: a last point is recorded exactly while the
    in-progress flag is set, and then both the canvas and the context are
    present. *)
Theorem stroke_state_consistent
    (env : Env) (ok : bool) (evs : list (Env * Event)) :
  let s := app (run evs (startWorld env ok)) in
  (isDrawing s = true <-> lastPosition s <> None)
  /\ (isDrawing s = true -> contextRef s <> None /\ canvasRef s <> None).
Proof.
  assert (strokeConsistent (app (run evs (startWorld env ok)))) as H.
  { apply (run_invariant strokeConsistent).
    - intros env' ev w. apply strokeConsistent_step.
    - destruct ok; reflexivity. }
  cbv zeta. unfold strokeConsistent in H.
  destruct (lastPosition (app (run evs (startWorld env ok)))) as [p|].
  - destruct H as (Hd & Hc & Hv). rewrite Hd.
    split; [split; [discriminate | reflexivity] | tauto].
  - rewrite H. split; [split; [discriminate | congruence] | discriminate].
Qed.

(** ** The drawing state of the context *)

(** A completed erase leaves the drawing state and the stack of saved
    states as they were. *)
Lemma eraseCircle_draw (x y radius : number) (c c' : Ctx.t) :
  eraseCircle x y radius c = Some c' ->
  Ctx.draw c' = Ctx.draw c /\ Ctx.stack c' = Ctx.stack c.
Proof.
  unfold eraseCircle, Ctx.arc. destruct (lt radius 0%float); [discriminate|].
  intros E. injection E as <-. split; reflexivity.
Qed.

Ltac use_cases :=
  repeat match goal with
    | E : eraseCircle _ _ _ _ = Some _ |- _ =>
        apply eraseCircle_draw in E; destruct E as [E _]
    | E : Some _ = Some _ |- _ => injection E as E; subst
    | E : ?x = _ |- context [?x] => rewrite E
    end.

Lemma closePath_draw (c : Ctx.t) : Ctx.draw (Ctx.closePath c) = Ctx.draw c.
Proof. unfold Ctx.closePath. destruct (Ctx.path c); reflexivity. Qed.

(** No mouse handler changes the drawing state, the colour or the pen
    size. *)
Lemma erase_ctxDraw (env : Env) (e : MouseEvent) (s : State) :
  ctxDraw (erase env e s) = ctxDraw s
  /\ selectedColor (erase env e s) = selectedColor s
  /\ penSize (erase env e s) = penSize s.
Proof.
  unfold ctxDraw, erase. handler_cases; cbn; use_cases; cbn;
    repeat split; congruence.
Qed.

Lemma draw_ctxDraw (env : Env) (e : MouseEvent) (s : State) :
  ctxDraw (draw env e s) = ctxDraw s
  /\ selectedColor (draw env e s) = selectedColor s
  /\ penSize (draw env e s) = penSize s.
Proof.
  unfold ctxDraw, draw. handler_cases; cbn; use_cases; cbn;
    repeat split; congruence.
Qed.

Lemma onMouseMove_ctxDraw (env : Env) (e : MouseEvent) (s : State) :
  ctxDraw (onMouseMove env e s) = ctxDraw s
  /\ selectedColor (onMouseMove env e s) = selectedColor s
  /\ penSize (onMouseMove env e s) = penSize s.
Proof.
  unfold onMouseMove.
  destruct (isDrawing s && Tool_eqb (tool s) pen).
  - destruct (draw_ctxDraw env e s) as (Hd & Hc & Hp).
    destruct (Tool_eqb (tool (draw env e s)) eraser); [|tauto].
    destruct (erase_ctxDraw env e (draw env e s)) as (Hd' & Hc' & Hp').
    repeat split; congruence.
  - destruct (Tool_eqb (tool s) eraser); [apply erase_ctxDraw | tauto].
Qed.

Lemma handleCanvasClick_ctxDraw (env : Env) (e : MouseEvent) (s : State) :
  ctxDraw (handleCanvasClick env e s) = ctxDraw s
  /\ selectedColor (handleCanvasClick env e s) = selectedColor s
  /\ penSize (handleCanvasClick env e s) = penSize s.
Proof.
  unfold handleCanvasClick.
  destruct (canvasRef s); [|tauto].
  destruct (Tool_eqb (tool s) sticker && truthy (selectedSticker s)); [tauto|].
  destruct (Tool_eqb (tool s) text); [tauto|].
  destruct (Tool_eqb (tool s) eraser); [apply erase_ctxDraw | tauto].
Qed.

Lemma startDrawing_ctxDraw (env : Env) (e : MouseEvent) (s : State) :
  ctxDraw (startDrawing env e s) = ctxDraw s
  /\ selectedColor (startDrawing env e s) = selectedColor s
  /\ penSize (startDrawing env e s) = penSize s.
Proof.
  unfold ctxDraw, startDrawing. handler_cases; cbn; use_cases; cbn;
    repeat split; congruence.
Qed.

Lemma stopDrawing_ctxDraw (s : State) :
  ctxDraw (stopDrawing s) = ctxDraw s
  /\ selectedColor (stopDrawing s) = selectedColor s
  /\ penSize (stopDrawing s) = penSize s.
Proof.
  unfold ctxDraw, stopDrawing, onContext.
  destruct (contextRef s) as [c|] eqn:E; cbn; rewrite ?E; cbn;
    rewrite ?closePath_draw; repeat split; reflexivity.
Qed.

(** Apart from the colour swatches and the pen-size slider, no event
    changes the drawing state, the colour or the pen size. *)
Lemma ctxDraw_step (env : Env) (ev : Event) (w : World) :
  match ev with
  | ColorPicked _ | PenSizeInput _ => True
  | _ =>
      ctxDraw (app (step env ev w)) = ctxDraw (app w)
      /\ selectedColor (app (step env ev w)) = selectedColor (app w)
      /\ penSize (app (step env ev w)) = penSize (app w)
  end.
Proof.
  destruct ev; cbn [step onApp app]; try exact I;
    try apply onMouseMove_ctxDraw; try apply handleCanvasClick_ctxDraw;
    try apply startDrawing_ctxDraw; try apply stopDrawing_ctxDraw;
    try (repeat split; reflexivity).
  - destruct t; repeat split; reflexivity.
  - handler_cases; repeat split; reflexivity.
Qed.

Lemma styleSynced_ext (s s' : State) :
  ctxDraw s' = ctxDraw s -> selectedColor s' = selectedColor s ->
  penSize s' = penSize s -> styleSynced s -> styleSynced s'.
Proof.
  unfold ctxDraw, styleSynced. intros Hd Hc Hp.
  destruct (contextRef s') as [c'|]; [|trivial].
  destruct (contextRef s) as [c|]; [|discriminate].
  cbn in Hd. injection Hd as Hd. now rewrite Hd, Hc, Hp.
Qed.

Lemma styleSynced_step (env : Env) (ev : Event) (w : World) :
  styleSynced (app w) -> styleSynced (app (step env ev w)).
Proof.
  intros H. pose proof (ctxDraw_step env ev w) as Hs.
  destruct ev;
    try (destruct Hs as (Hd & Hc & Hp);
         exact (styleSynced_ext _ _ Hd Hc Hp H)).
  - cbn [step onApp app]. unfold pickColor, syncStyle, onContext, styleSynced in *.
    destruct (contextRef (app w)) as [c|] eqn:E;
      cbn; rewrite ?E; cbn; rewrite ?E; [|exact I].
    destruct H as (_ & _ & H). repeat split; apply H.
  - cbn [step onApp app].
    unfold changePenSize, syncStyle, onContext, styleSynced in *.
    destruct (contextRef (app w)) as [c|] eqn:E;
      cbn; rewrite ?E; cbn; rewrite ?E; [|exact I].
    destruct H as (_ & _ & H). repeat split; apply H.
Qed.

(** X3. Along every run from the first render the drawing state of the
    context agrees with the component: the stroke colour is the selected
    colour, the line width is the pen size, caps and joins are round, the
    fill colour is white and no clipping region is left behind by the
    eraser. *)
Theorem drawing_style_in_sync
    (env : Env) (ok : bool) (evs : list (Env * Event)) :
  styleSynced (app (run evs (startWorld env ok))).
Proof.
  apply (run_invariant styleSynced).
  - intros env' ev w. apply styleSynced_step.
  - destruct ok; cbn; [repeat split | exact I].
Qed.

(** ** A canvas without a context *)

Lemma strokeConsistent_run (env : Env) (ok : bool) (evs : list (Env * Event)) :
  strokeConsistent (app (run evs (startWorld env ok))).
Proof.
  apply (run_invariant strokeConsistent).
  - intros env' ev w. apply strokeConsistent_step.
  - destruct ok; reflexivity.
Qed.

(** No handler creates a context. *)
Lemma no_context_step (env : Env) (ev : Event) (w : World) :
  contextRef (app w) = None -> contextRef (app (step env ev w)) = None.
Proof.
  intros H. pose proof (ctxDraw_step env ev w) as Hs. unfold ctxDraw in Hs.
  destruct ev;
    try (destruct Hs as (Hd & _); rewrite H in Hd;
         destruct (contextRef (app (step _ _ w))); [discriminate | reflexivity]).
  - cbn [step onApp app]. unfold pickColor, syncStyle, onContext. cbn.
    rewrite H. cbn. exact H.
  - cbn [step onApp app]. unfold changePenSize, syncStyle, onContext. cbn.
    rewrite H. cbn. exact H.
Qed.

(** X11. When [getContext] fails at mount, the component never obtains a
    context: along every run the surface stays empty, no stroke is ever in
    progress, and pointer-down, pointer-move and the eraser leave the state
    exactly as it is. *)
Theorem no_context_disables_drawing (env : Env) (evs : list (Env * Event)) :
  let s := app (run evs (startWorld env false)) in
  contextRef s = None
  /\ surface s = []
  /\ isDrawing s = false /\ lastPosition s = None
  /\ (forall env' e,
        startDrawing env' e s = s /\ draw env' e s = s
        /\ erase env' e s = s /\ onMouseMove env' e s = s).
Proof.
  cbv zeta.
  assert (contextRef (app (run evs (startWorld env false))) = None) as Hc.
  { apply (run_invariant (fun s => contextRef s = None)).
    - intros env' ev w. apply no_context_step.
    - reflexivity. }
  pose proof (strokeConsistent_run env false evs) as Hs.
  unfold strokeConsistent in Hs.
  set (s := app (run evs (startWorld env false))) in *.
  assert (isDrawing s = false /\ lastPosition s = None) as [Hd Hl].
  { destruct (lastPosition s); [|now split].
    destruct Hs as (_ & Hne & _). now elim Hne. }
  split; [exact Hc|]. split; [unfold surface; now rewrite Hc|].
  split; [exact Hd|]. split; [exact Hl|].
  intros env' e.
  assert (draw env' e s = s) as Ed by (apply draw_guard; now left).
  assert (erase env' e s = s) as Ee.
  { unfold erase. rewrite Hc. now destruct (negb (Tool_eqb (tool s) eraser)). }
  split; [|split; [exact Ed|split; [exact Ee|]]].
  - unfold startDrawing. rewrite Hc.
    destruct (negb (Tool_eqb (tool s) pen)); [reflexivity|].
    now destruct (canvasRef s).
  - unfold onMouseMove. rewrite Hd. cbn.
    destruct (Tool_eqb (tool s) eraser); [exact Ee | reflexivity].
Qed.

(** ** More on the eraser *)

(** X4. A completed [eraseCircle] paints exactly one white rectangle of
    side [2 * radius] around [(x, y)], clipped to the circle of that center
    and radius, and gives back the drawing state and the stack of saved
    states as they were before: neither the white fill nor the clip reaches
    later strokes.  With a negative radius [arc] throws and nothing is
    painted. *)
Theorem eraseCircle_clears_disc (x y radius : number) (c : Ctx.t) :
  (lt radius 0%float = true -> eraseCircle x y radius c = None)
  /\ (lt radius 0%float = false ->
      exists c' d,
        eraseCircle x y radius c = Some c'
        /\ Ctx.draw c' = Ctx.draw c
        /\ Ctx.stack c' = Ctx.stack c
        /\ Ctx.bitmap c' =
             Ctx.bitmap c ++ [Ctx.FillRect (x - radius)%float (y - radius)%float
                                (radius * 2)%float (radius * 2)%float d]
        /\ Ctx.fillStyle d = "white"%string
        /\ Ctx.clip d =
             [Ctx.Arc x y radius 0%float (Math_PI * 2)%float]
               :: Ctx.clip (Ctx.draw c)
        /\ Ctx.transform d = Ctx.transform (Ctx.draw c)).
Proof.
  unfold eraseCircle, Ctx.arc. split; intros H; rewrite H.
  - reflexivity.
  - eexists. eexists. split; [reflexivity|]. repeat split.
Qed.

Lemma eraseCircle_clears_disc_witness :
  exists c', eraseCircle 120%float 120%float 30%float Ctx.fresh = Some c'
             /\ Ctx.draw c' = Ctx.draw Ctx.fresh.
Proof.
  destruct (eraseCircle_clears_disc 120%float 120%float 30%float Ctx.fresh)
    as [_ H].
  destruct (H eq_refl) as (c' & d & E & Hd & _).
  exists c'. split; assumption.
Defined.

Lemma filter_comm (A : Type) (p q : A -> bool) (l : list A) :
  filter p (filter q l) = filter q (filter p l).
Proof.
  induction l as [|a l IH]; simpl; [reflexivity|].
  destruct (p a) eqn:Hp, (q a) eqn:Hq; simpl; rewrite ?Hp, ?Hq, IH; reflexivity.
Qed.

Lemma filter_idem (A : Type) (p : A -> bool) (l : list A) :
  filter p (filter p l) = filter p l.
Proof.
  induction l as [|a l IH]; simpl; [reflexivity|].
  destruct (p a) eqn:Hp; simpl; rewrite ?Hp, IH; reflexivity.
Qed.

(** What [erase] does to the collections, whatever the state. *)
Lemma erase_collections (env : Env) (e : MouseEvent) (s : State) :
  stickers (erase env e s) =
    (if eraseApplies s
     then filter (fun o => gt (stickerDistance (canvasPoint env e s) o)
                             (eraseRadius s)) (stickers s)
     else stickers s)
  /\ textBoxes (erase env e s) =
    (if eraseApplies s
     then filter (fun o => gt (textBoxDistance (canvasPoint env e s) o)
                             (eraseRadius s)) (textBoxes s)
     else textBoxes s)
  /\ images (erase env e s) =
    (if eraseApplies s
     then filter (fun o => gt (imageDistance (canvasPoint env e s) o)
                             (eraseRadius s)) (images s)
     else images s).
Proof.
  unfold erase, eraseApplies, eraseCircle, Ctx.arc.
  destruct (Tool_eqb (tool s) eraser), (contextRef s) as [c|],
    (canvasRef s) as [cv|], (lt (eraseRadius s) 0%float);
    cbn; repeat split; reflexivity.
Qed.

(** [erase] changes nothing that a later [erase] depends on. *)
Lemma erase_frame (env : Env) (e : MouseEvent) (s : State) :
  eraseApplies (erase env e s) = eraseApplies s
  /\ penSize (erase env e s) = penSize s
  /\ scale (erase env e s) = scale s
  /\ tool (erase env e s) = tool s.
Proof.
  unfold erase, eraseApplies, eraseCircle, Ctx.arc, eraseRadius, lt.
  destruct (Tool_eqb (tool s) eraser) eqn:Et, (contextRef s) as [c|] eqn:Ec,
    (canvasRef s) as [cv|] eqn:Ev, (penSize s * 2 <? 0)%float eqn:El;
    cbn; rewrite ?Et, ?Ec, ?Ev, ?El; repeat split; reflexivity.
Qed.

Lemma erase_twice (env1 env2 : Env) (e1 e2 : MouseEvent) (s : State) :
  let p1 := canvasPoint env1 e1 s in
  let p2 := canvasPoint env2 e2 s in
  let r := eraseRadius s in
  stickers (erase env2 e2 (erase env1 e1 s)) =
    (if eraseApplies s
     then filter (fun o => gt (stickerDistance p2 o) r)
            (filter (fun o => gt (stickerDistance p1 o) r) (stickers s))
     else stickers s)
  /\ textBoxes (erase env2 e2 (erase env1 e1 s)) =
    (if eraseApplies s
     then filter (fun o => gt (textBoxDistance p2 o) r)
            (filter (fun o => gt (textBoxDistance p1 o) r) (textBoxes s))
     else textBoxes s)
  /\ images (erase env2 e2 (erase env1 e1 s)) =
    (if eraseApplies s
     then filter (fun o => gt (imageDistance p2 o) r)
            (filter (fun o => gt (imageDistance p1 o) r) (images s))
     else images s).
Proof.
  cbv zeta.
  destruct (erase_collections env2 e2 (erase env1 e1 s)) as (Hs & Ht & Hi).
  destruct (erase_collections env1 e1 s) as (Hs1 & Ht1 & Hi1).
  destruct (erase_frame env1 e1 s) as (Ha & Hp & Hz & _).
  assert (canvasPoint env2 e2 (erase env1 e1 s) = canvasPoint env2 e2 s) as Ec
    by (unfold canvasPoint; now rewrite Hz).
  assert (eraseRadius (erase env1 e1 s) = eraseRadius s) as Er
    by (unfold eraseRadius; now rewrite Hp).
  rewrite Hs, Ht, Hi, Ha, Ec, Er, Hs1, Ht1, Hi1.
  destruct (eraseApplies s); repeat split; reflexivity.
Qed.

(** X5. On the three collections the order of two eraser applications
    does not matter, and repeating an application at the same point removes
    nothing more. *)
Theorem erase_order_irrelevant
    (env1 env2 : Env) (e1 e2 : MouseEvent) (s : State) :
  (stickers (erase env2 e2 (erase env1 e1 s))
   = stickers (erase env1 e1 (erase env2 e2 s))
   /\ textBoxes (erase env2 e2 (erase env1 e1 s))
      = textBoxes (erase env1 e1 (erase env2 e2 s))
   /\ images (erase env2 e2 (erase env1 e1 s))
      = images (erase env1 e1 (erase env2 e2 s)))
  /\
  (stickers (erase env1 e1 (erase env1 e1 s)) = stickers (erase env1 e1 s)
   /\ textBoxes (erase env1 e1 (erase env1 e1 s)) = textBoxes (erase env1 e1 s)
   /\ images (erase env1 e1 (erase env1 e1 s)) = images (erase env1 e1 s)).
Proof.
  destruct (erase_twice env1 env2 e1 e2 s) as (Hs & Ht & Hi).
  destruct (erase_twice env2 env1 e2 e1 s) as (Hs' & Ht' & Hi').
  destruct (erase_twice env1 env1 e1 e1 s) as (Js & Jt & Ji).
  destruct (erase_collections env1 e1 s) as (Ks & Kt & Ki).
  cbv zeta in *.
  rewrite Hs, Ht, Hi, Hs', Ht', Hi', Js, Jt, Ji, Ks, Kt, Ki.
  destruct (eraseApplies s); [|repeat split; reflexivity].
  split; repeat split; first [apply filter_comm | apply filter_idem].
Qed.

(** ** Pen gestures *)

(** A pointer move during a stroke appends a segment and strokes the path. *)
Lemma onMouseMove_pen (env : Env) (e : MouseEvent) (s : State)
    (c : Ctx.t) (cv : HTMLCanvasElement) (lp : Point) :
  tool s = pen -> isDrawing s = true -> lastPosition s = Some lp ->
  canvasRef s = Some cv -> contextRef s = Some c ->
  onMouseMove env e s =
  setLastPosition (Some (canvasPoint env e s))
    (setContextRef
       (Some (Ctx.stroke (Ctx.lineTo (px (canvasPoint env e s))
                            (py (canvasPoint env e s)) c))) s).
Proof.
  intros Ht Hd Hl Hv Hc. unfold onMouseMove, draw.
  rewrite Ht, Hd, Hl, Hv, Hc. cbn. rewrite Ht. reflexivity.
Qed.

Lemma last_default (A : Type) (l : list A) (a d d' : A) :
  last (a :: l) d = last (a :: l) d'.
Proof.
  revert a. induction l as [|b l IH]; intros a; [reflexivity|].
  change (last (b :: l) d = last (b :: l) d'). apply IH.
Qed.

Lemma polyline_snoc (p0 p : Point) (ps : list Point) :
  polyline p0 ps ++ [Ctx.LineTo (px p) (py p)] = polyline p0 (ps ++ [p]).
Proof. unfold polyline. cbn. now rewrite map_app. Qed.

Lemma strokes_shift (p0 p : Point) (done ps : list Point) (d : Ctx.DrawState)
    (n : nat) :
  map (fun k => Ctx.Stroke (polyline p0 ((done ++ [p]) ++ firstn k ps)) d)
    (seq 1 n)
  = map (fun k => Ctx.Stroke (polyline p0 (done ++ firstn k (p :: ps))) d)
      (seq 2 n).
Proof.
  rewrite <- (seq_shift n 1), map_map. apply map_ext.
  intros k. cbn [firstn]. now rewrite <- app_assoc.
Qed.

(** The moves of a stroke in progress: the path grows by one segment per
    move, and each move strokes the whole path drawn so far. *)
Lemma pen_moves (moves : list (Env * MouseEvent)) :
  forall (s : State) (c : Ctx.t) (cv : HTMLCanvasElement) (lp p0 : Point)
         (done : list Point),
  tool s = pen -> isDrawing s = true -> lastPosition s = Some lp ->
  canvasRef s = Some cv -> contextRef s = Some c ->
  Ctx.path c = polyline p0 done ->
  let ps := map (fun em => canvasPoint (fst em) (snd em) s) moves in
  let s' := fold_left (fun s em => onMouseMove (fst em) (snd em) s) moves s in
  exists c',
    contextRef s' = Some c'
    /\ Ctx.path c' = polyline p0 (done ++ ps)
    /\ Ctx.draw c' = Ctx.draw c
    /\ Ctx.bitmap c' =
         Ctx.bitmap c
         ++ map (fun k => Ctx.Stroke (polyline p0 (done ++ firstn k ps))
                            (Ctx.draw c))
              (seq 1 (List.length ps))
    /\ isDrawing s' = true
    /\ lastPosition s' = Some (last ps lp)
    /\ tool s' = pen
    /\ stickers s' = stickers s /\ textBoxes s' = textBoxes s
    /\ images s' = images s.
Proof.
  induction moves as [|[env e] moves IH];
    intros s c cv lp p0 done Ht Hd Hl Hv Hc Hp; cbv zeta.
  - exists c. cbn. rewrite !app_nil_r. repeat split; assumption.
  - cbn [fold_left map fst snd].
    rewrite (onMouseMove_pen env e s Ht Hd Hl Hv Hc).
    set (p := canvasPoint env e s).
    set (c1 := Ctx.stroke (Ctx.lineTo (px p) (py p) c)).
    set (s1 := setLastPosition (Some p) (setContextRef (Some c1) s)).
    destruct (IH s1 c1 cv p p0 (done ++ [p])) as
      (c' & Ec & Epath & Edraw & Ebit & Ed & El & Et & Es & Etb & Ei);
      try reflexivity; try assumption.
    { change (Ctx.path c1) with (Ctx.path c ++ [Ctx.LineTo (px p) (py p)]).
      rewrite Hp. apply polyline_snoc. }
    cbv zeta in *.
    change (map (fun em => canvasPoint (fst em) (snd em) s1) moves)
      with (map (fun em => canvasPoint (fst em) (snd em) s) moves) in *.
    set (ps := map (fun em => canvasPoint (fst em) (snd em) s) moves) in *.
    exists c'. split; [exact Ec|].
    split; [now rewrite Epath, <- app_assoc|].
    split; [exact Edraw|].
    split.
    { rewrite Ebit. cbn [List.length seq map firstn].
      change (Ctx.bitmap c1)
        with (Ctx.bitmap c ++ [Ctx.Stroke (Ctx.path c ++ [Ctx.LineTo (px p) (py p)])
                                 (Ctx.draw c)]).
      rewrite Hp, polyline_snoc, <- app_assoc. cbn [app].
      change (Ctx.draw c1) with (Ctx.draw c).
      now rewrite strokes_shift. }
    split; [exact Ed|].
    split; [|repeat split; assumption].
    rewrite El. destruct ps as [|p1 ps]; [reflexivity|].
    f_equal. change (last (p :: p1 :: ps) lp) with (last (p1 :: ps) lp).
    apply last_default.
Qed.

(** X2. A pen gesture (pointer-down, then pointer moves) with the pen
    selected and a canvas and context present leaves, as current path, the
    polyline from the pointer-down position through the positions of the
    moves; every move paints one stroke, the [k]-th being the polyline
    through the first [k] positions, with the drawing state the gesture
    began with.  The stroke stays in progress at the last position, and no
    collection changes. *)
Theorem pen_gesture_paints_polyline
    (down : Env * MouseEvent) (moves : list (Env * MouseEvent))
    (s : State) (c : Ctx.t) (cv : HTMLCanvasElement) :
  tool s = pen -> canvasRef s = Some cv -> contextRef s = Some c ->
  let p0 := canvasPoint (fst down) (snd down) s in
  let ps := map (fun em => canvasPoint (fst em) (snd em) s) moves in
  let s' := penGesture down moves s in
  exists c',
    contextRef s' = Some c'
    /\ Ctx.path c' = polyline p0 ps
    /\ Ctx.bitmap c' =
         Ctx.bitmap c
         ++ map (fun k => Ctx.Stroke (polyline p0 (firstn k ps)) (Ctx.draw c))
              (seq 1 (List.length moves))
    /\ isDrawing s' = true
    /\ lastPosition s' = Some (last ps p0)
    /\ stickers s' = stickers s /\ textBoxes s' = textBoxes s
    /\ images s' = images s.
Proof.
  intros Ht Hv Hc. cbv zeta. unfold penGesture.
  set (p0 := canvasPoint (fst down) (snd down) s).
  assert (startDrawing (fst down) (snd down) s
          = setLastPosition (Some p0)
              (setIsDrawing true
                 (setContextRef
                    (Some (Ctx.moveTo (px p0) (py p0) (Ctx.beginPath c))) s)))
    as E.
  { unfold startDrawing. rewrite Ht, Hv, Hc. reflexivity. }
  rewrite E.
  set (c0 := Ctx.moveTo (px p0) (py p0) (Ctx.beginPath c)).
  set (s0 := setLastPosition (Some p0)
               (setIsDrawing true (setContextRef (Some c0) s))).
  destruct (@pen_moves moves s0 c0 cv p0 p0 []) as
    (c' & Ec & Epath & Edraw & Ebit & Ed & El & _ & Es & Etb & Ei);
    try reflexivity; try assumption.
  cbv zeta in *.
  change (map (fun em => canvasPoint (fst em) (snd em) s0) moves)
    with (map (fun em => canvasPoint (fst em) (snd em) s) moves) in *.
  exists c'. rewrite length_map in Ebit.
  repeat split; assumption.
Qed.

Lemma pen_gesture_paints_polyline_witness :
  isDrawing
    (penGesture (env0 0, pointerAt 10%float 10%float 1%Z)
       [(env0 0, pointerAt 20%float 20%float 1%Z);
        (env0 0, pointerAt 30%float 20%float 1%Z)]
       (handleToolChange pen mounted)) = true.
Proof.
  destruct (@pen_gesture_paints_polyline
              (env0 0, pointerAt 10%float 10%float 1%Z)
              [(env0 0, pointerAt 20%float 20%float 1%Z);
               (env0 0, pointerAt 30%float 20%float 1%Z)]
              (handleToolChange pen mounted) _ _ eq_refl eq_refl eq_refl)
    as (c' & _ & _ & _ & H & _).
  exact H.
Defined.

(** ** Placement *)

(** X6. After a sticker kind is picked in the sticker picker, the next
    click on the mounted canvas appends exactly one sticker of that kind,
    50 x 50, at the click position in canvas space, touches neither the
    other collections nor the surface, clears the selection and resets the
    tool; the click after that changes nothing (single-shot placement). *)
Theorem sticker_placement_single_shot
    (env env' : Env) (e e' : MouseEvent) (kind : string) (s : State)
    (cv : HTMLCanvasElement) :
  canvasRef s = Some cv -> truthy kind = true ->
  let p := canvasPoint env e s in
  let s1 := handleCanvasClick env e (pickSticker kind s) in
  stickers s1 =
    stickers s ++ [Sticker.mk ("sticker-" ++ toString (now env))%string kind
                     (px p) (py p) 50%float 50%float]
  /\ textBoxes s1 = textBoxes s /\ images s1 = images s
  /\ surface s1 = surface s
  /\ tool s1 = none /\ selectedSticker s1 = ""%string
  /\ handleCanvasClick env' e' s1 = s1.
Proof.
  intros Hv Hk. cbv zeta.
  assert (handleCanvasClick env e (pickSticker kind s)
          = setTool none
              (setSelectedSticker ""
                 (setStickers
                    (fun prev =>
                       prev ++ [Sticker.mk
                                  ("sticker-" ++ toString (now env))%string kind
                                  (px (canvasPoint env e s))
                                  (py (canvasPoint env e s))
                                  STICKER_DEFAULT_SIZE STICKER_DEFAULT_SIZE])
                    (pickSticker kind s)))) as E.
  { unfold handleCanvasClick, pickSticker. cbn. rewrite Hv, Hk. reflexivity. }
  rewrite E. repeat split.
  unfold handleCanvasClick. cbn. rewrite Hv. reflexivity.
Qed.

Lemma sticker_placement_single_shot_witness :
  List.length
    (stickers (handleCanvasClick (env0 7) (pointerAt 100%float 100%float 0%Z)
                 (pickSticker "fas fa-star" mounted))) = 1.
Proof.
  destruct (@sticker_placement_single_shot (env0 7) (env0 8)
              (pointerAt 100%float 100%float 0%Z)
              (pointerAt 5%float 5%float 0%Z) "fas fa-star" mounted _
              eq_refl eq_refl) as (H & _).
  cbv zeta in H. rewrite H. reflexivity.
Defined.

(** X7. With the text tool selected, a click on the mounted canvas appends
    exactly one empty text box, 150 x 50, at the click position in canvas
    space, makes it the active text box, touches neither the other
    collections nor the surface, and resets the tool; the click after that
    changes nothing. *)
Theorem text_placement_single_shot
    (env env' : Env) (e e' : MouseEvent) (s : State) (cv : HTMLCanvasElement) :
  canvasRef s = Some cv -> tool s = text ->
  let p := canvasPoint env e s in
  let newId := ("text-" ++ toString (now env))%string in
  let s1 := handleCanvasClick env e s in
  textBoxes s1 =
    textBoxes s ++ [TextBox.mk newId (px p) (py p) 150%float 50%float ""]
  /\ activeTextBox s1 = Some newId
  /\ stickers s1 = stickers s /\ images s1 = images s
  /\ surface s1 = surface s
  /\ tool s1 = none
  /\ handleCanvasClick env' e' s1 = s1.
Proof.
  intros Hv Ht. cbv zeta.
  assert (handleCanvasClick env e s
          = setTool none
              (setActiveTextBox (Some ("text-" ++ toString (now env))%string)
                 (setTextBoxes
                    (fun prev =>
                       prev ++ [TextBox.mk
                                  ("text-" ++ toString (now env))%string
                                  (px (canvasPoint env e s))
                                  (py (canvasPoint env e s))
                                  150%float 50%float ""])
                    s))) as E.
  { unfold handleCanvasClick. rewrite Hv, Ht. reflexivity. }
  rewrite E. repeat split.
  unfold handleCanvasClick. cbn. rewrite Hv. reflexivity.
Qed.

Lemma text_placement_single_shot_witness :
  activeTextBox
    (handleCanvasClick (env0 9) (pointerAt 40%float 60%float 0%Z)
       (handleToolChange text mounted)) = Some "text-9"%string.
Proof.
  destruct (@text_placement_single_shot (env0 9) (env0 10)
              (pointerAt 40%float 60%float 0%Z)
              (pointerAt 5%float 5%float 0%Z)
              (handleToolChange text mounted) _ eq_refl eq_refl)
    as (_ & H & _).
  exact H.
Defined.

(** ** Paste events *)

Lemma handlePaste_length (items : list DataTransferItem) (s : State) :
  List.length (handlePaste (Some items) s) <= List.length items.
Proof.
  unfold handlePaste. induction items as [|it items IH]; cbn; [lia|].
  destruct (includes "image" (item_type it)); [|cbn; lia].
  destruct (getAsFile it); cbn; lia.
Qed.

(** X8. A paste event never changes the component state by itself; it
    starts at most one image load per clipboard item, each for an item
    whose type contains "image" and that has a file, and a paste without
    such an item (or without clipboard data) changes nothing at all. *)
Theorem paste_ignores_non_images
    (env : Env) (items : list DataTransferItem) (w : World) :
  app (step env (Paste (Some items)) w) = app w
  /\ List.length (loading (step env (Paste (Some items)) w))
     <= List.length (loading w) + List.length items
  /\ step env (Paste None) w = w
  /\ ((forall it, In it items ->
          includes "image" (item_type it) = false \/ getAsFile it = None) ->
      step env (Paste (Some items)) w = w).
Proof.
  split; [reflexivity|]. split.
  { cbn [step loading]. rewrite length_app.
    pose proof (handlePaste_length items (app w)). lia. }
  split.
  { destruct w. cbn. now rewrite app_nil_r. }
  intros H.
  assert (handlePaste (Some items) (app w) = []) as E.
  { unfold handlePaste. induction items as [|it items IH]; [reflexivity|].
    cbn [flat_map]. rewrite IH by (intros it' Hin; apply H; now right).
    destruct (H it (or_introl eq_refl)) as [Hn|Hn]; rewrite Hn;
      [reflexivity|]. now destruct (includes "image" (item_type it)). }
  destruct w. cbn [step app loading]. cbn [app loading] in E.
  now rewrite E, app_nil_r.
Qed.

Lemma paste_ignores_non_images_witness :
  step (env0 3) (Paste (Some [pastedText])) mountedWorld = mountedWorld.
Proof.
  destruct (paste_ignores_non_images (env0 3) [pastedText] mountedWorld)
    as (_ & _ & _ & H).
  apply H. intros it Hin. right.
  destruct Hin as [<-|[]]. reflexivity.
Defined.

(** ** Successive gestures on placed objects *)

Ltac same_object :=
  unfold stickerDragStop, stickerResizeStop, textBoxDragStop,
    textBoxResizeStop, textBoxChange, imageDragStop, imageResizeStop,
    setStickers, setTextBoxes, setImages;
  cbn; f_equal; rewrite map_map; apply map_ext; intros o;
  match goal with
  | |- context [String.eqb ?a ?b] =>
      let E := fresh "E" in
      destruct (String.eqb a b) eqn:E; cbn; rewrite ?E; reflexivity
  end.

(** X9. The last gesture on an object wins, with no partial merge: a
    drag-stop after a drag-stop, and a resize-stop after a drag-stop or a
    resize-stop, give the state the later one gives alone; a drag-stop after
    a resize-stop gives the resized size at the dragged position. *)
Theorem last_gesture_wins
    (id sw sh sw' sh' : string) (x y x' y' : number) (s : State) :
  (stickerDragStop id x' y' (stickerDragStop id x y s)
   = stickerDragStop id x' y' s
   /\ stickerResizeStop id sw' sh' x' y' (stickerResizeStop id sw sh x y s)
      = stickerResizeStop id sw' sh' x' y' s
   /\ stickerResizeStop id sw' sh' x' y' (stickerDragStop id x y s)
      = stickerResizeStop id sw' sh' x' y' s
   /\ stickerDragStop id x' y' (stickerResizeStop id sw sh x y s)
      = stickerResizeStop id sw sh x' y' s)
  /\
  (textBoxDragStop id x' y' (textBoxDragStop id x y s)
   = textBoxDragStop id x' y' s
   /\ textBoxResizeStop id sw' sh' x' y' (textBoxResizeStop id sw sh x y s)
      = textBoxResizeStop id sw' sh' x' y' s
   /\ textBoxResizeStop id sw' sh' x' y' (textBoxDragStop id x y s)
      = textBoxResizeStop id sw' sh' x' y' s
   /\ textBoxDragStop id x' y' (textBoxResizeStop id sw sh x y s)
      = textBoxResizeStop id sw sh x' y' s)
  /\
  (imageDragStop id x' y' (imageDragStop id x y s)
   = imageDragStop id x' y' s
   /\ imageResizeStop id sw' sh' x' y' (imageResizeStop id sw sh x y s)
      = imageResizeStop id sw' sh' x' y' s
   /\ imageResizeStop id sw' sh' x' y' (imageDragStop id x y s)
      = imageResizeStop id sw' sh' x' y' s
   /\ imageDragStop id x' y' (imageResizeStop id sw sh x y s)
      = imageResizeStop id sw sh x' y' s).
Proof.
  split; [|split]; (split; [|split; [|split]]); same_object.
Qed.

(** X10. A text edit replaces the content of the text boxes that carry
    the id and nothing else: position and size are kept, every other text
    box is kept, stickers and images are untouched; the last of two edits
    of the same box wins, an edit does not disturb a drag of the same box,
    and an edit for an id that is not present changes nothing. *)
Theorem text_edit_replaces_content_only
    (id value value' : string) (x y : number) (s : State) :
  updatedAt TextBox.id (textBoxEdited value) id
    (textBoxes s) (textBoxes (textBoxChange id value s))
  /\ stickers (textBoxChange id value s) = stickers s
  /\ images (textBoxChange id value s) = images s
  /\ textBoxChange id value' (textBoxChange id value s)
     = textBoxChange id value' s
  /\ textBoxChange id value (textBoxDragStop id x y s)
     = textBoxDragStop id x y (textBoxChange id value s)
  /\ (absent TextBox.id id (textBoxes s) -> textBoxChange id value s = s).
Proof.
  split; [|split; [reflexivity|split; [reflexivity|split; [|split]]]].
  - apply updatedAt_map. intros o _. repeat split.
  - same_object.
  - unfold textBoxDragStop, textBoxChange, setTextBoxes. cbn. f_equal.
    rewrite !map_map. apply map_ext. intros o.
    destruct (String.eqb (TextBox.id o) id) eqn:E; cbn; rewrite ?E;
      reflexivity.
  - intros Ha. apply setTextBoxes_same. now apply map_absent.
Qed.

Lemma text_edit_replaces_content_only_witness :
  textBoxChange "text-404" "hello" scenarioState = scenarioState.
Proof.
  destruct (text_edit_replaces_content_only "text-404" "hello" "" 0%float
              0%float scenarioState) as (_ & _ & _ & _ & _ & H).
  apply H. intros o [].
Defined.

Ltac other_object H :=
  unfold stickerDragStop, stickerResizeStop, textBoxDragStop,
    textBoxResizeStop, imageDragStop, imageResizeStop,
    setStickers, setTextBoxes, setImages;
  cbn; f_equal; rewrite !map_map; apply map_ext; intros o;
  match goal with
  | |- context [String.eqb ?a ?b] =>
      match goal with
      | |- context [String.eqb a ?c] =>
          tryif constr_eq b c then fail else
            (let E1 := fresh "E" in
             let E2 := fresh "E" in
             destruct (String.eqb a b) eqn:E1, (String.eqb a c) eqn:E2;
             cbn; rewrite ?E1, ?E2; try reflexivity;
             apply String.eqb_eq in E1, E2; exfalso; apply H; congruence)
      end
  end.

(** X16. Gestures on objects with different ids do not interfere: in each
    collection, a drag-stop for one id commutes with a drag-stop and with a
    resize-stop for another id. *)
Theorem gestures_on_different_objects_commute
    (id1 id2 sw sh : string) (x1 y1 x2 y2 : number) (s : State) :
  id1 <> id2 ->
  (stickerDragStop id1 x1 y1 (stickerDragStop id2 x2 y2 s)
   = stickerDragStop id2 x2 y2 (stickerDragStop id1 x1 y1 s)
   /\ stickerDragStop id1 x1 y1 (stickerResizeStop id2 sw sh x2 y2 s)
      = stickerResizeStop id2 sw sh x2 y2 (stickerDragStop id1 x1 y1 s))
  /\
  (textBoxDragStop id1 x1 y1 (textBoxDragStop id2 x2 y2 s)
   = textBoxDragStop id2 x2 y2 (textBoxDragStop id1 x1 y1 s)
   /\ textBoxDragStop id1 x1 y1 (textBoxResizeStop id2 sw sh x2 y2 s)
      = textBoxResizeStop id2 sw sh x2 y2 (textBoxDragStop id1 x1 y1 s))
  /\
  (imageDragStop id1 x1 y1 (imageDragStop id2 x2 y2 s)
   = imageDragStop id2 x2 y2 (imageDragStop id1 x1 y1 s)
   /\ imageDragStop id1 x1 y1 (imageResizeStop id2 sw sh x2 y2 s)
      = imageResizeStop id2 sw sh x2 y2 (imageDragStop id1 x1 y1 s)).
Proof.
  intros H. split; [|split]; split; other_object H.
Qed.

Lemma gestures_on_different_objects_commute_witness :
  stickerDragStop "sticker-1" 1%float 2%float
    (stickerDragStop "sticker-2" 3%float 4%float scenarioState)
  = stickerDragStop "sticker-2" 3%float 4%float
      (stickerDragStop "sticker-1" 1%float 2%float scenarioState).
Proof.
  destruct (@gestures_on_different_objects_commute "sticker-1" "sticker-2"
              "" "" 1%float 2%float 3%float 4%float scenarioState)
    as ((H & _) & _); [discriminate | exact H].
Defined.

(** ** What removes objects *)

Lemma kept_prefix (A : Type) (ident : A -> string) (l l' : list A) :
  kept ident l l' -> exists extra, map ident l' = map ident l ++ map ident extra.
Proof.
  intros [l0|f l0 Hf|o l0].
  - exists []. now rewrite app_nil_r.
  - exists []. rewrite app_nil_r, map_map. apply map_ext. exact Hf.
  - exists [o]. apply map_app.
Qed.

Ltac keep :=
  cbn;
  first
    [ apply kept_same
    | apply kept_insert
    | apply kept_map; intros ?o; cbn;
      match goal with
      | |- context [if ?b then _ else _] => destruct b
      end; reflexivity ].

Ltac keep_all := split; [keep | split; keep].

Lemma erase_other_tool (env : Env) (e : MouseEvent) (s : State) :
  tool s <> eraser -> erase env e s = s.
Proof.
  intros H. unfold erase. destruct (tool s); try reflexivity. now elim H.
Qed.

(** With another tool than the eraser, an event keeps every object of
    every collection. *)
Lemma step_kept (env : Env) (ev : Event) (w : World) :
  tool (app w) <> eraser ->
  kept Sticker.id (stickers (app w)) (stickers (app (step env ev w)))
  /\ kept TextBox.id (textBoxes (app w)) (textBoxes (app (step env ev w)))
  /\ kept Image.id (images (app w)) (images (app (step env ev w))).
Proof.
  intros Ht.
  assert (Tool_eqb (tool (app w)) eraser = false) as Hf
    by (destruct (tool (app w)); try reflexivity; now elim Ht).
  destruct ev; cbn [step onApp app]; try (keep_all; fail).
  - unfold handleToolChange. destruct t; keep_all.
  - unfold pickColor, syncStyle, onContext. cbn. handler_cases; keep_all.
  - unfold changePenSize, syncStyle, onContext. cbn. handler_cases; keep_all.
  - unfold startDrawing. handler_cases; keep_all.
  - unfold onMouseMove.
    destruct (isDrawing (app w) && Tool_eqb (tool (app w)) pen);
      rewrite ?draw_tool, Hf; [|keep_all].
    unfold draw. handler_cases; keep_all.
  - unfold stopDrawing, onContext. handler_cases; keep_all.
  - unfold stopDrawing, onContext. handler_cases; keep_all.
  - unfold handleCanvasClick. rewrite Hf. handler_cases; keep_all.
  - handler_cases; keep_all.
Qed.

(** X14. Only the eraser removes objects: while another tool is selected,
    every event keeps every object of the three collections, in order and
    with its id; the ids of each collection before the event are a prefix of
    the ids after it. *)
Theorem only_eraser_removes (env : Env) (ev : Event) (w : World) :
  tool (app w) <> eraser ->
  (exists extra,
      map Sticker.id (stickers (app (step env ev w)))
      = map Sticker.id (stickers (app w)) ++ map Sticker.id extra)
  /\ (exists extra,
        map TextBox.id (textBoxes (app (step env ev w)))
        = map TextBox.id (textBoxes (app w)) ++ map TextBox.id extra)
  /\ (exists extra,
        map Image.id (images (app (step env ev w)))
        = map Image.id (images (app w)) ++ map Image.id extra).
Proof.
  intros Ht. destruct (step_kept env ev w Ht) as (Hs & Hb & Hi).
  split; [|split]; now apply kept_prefix.
Qed.

Lemma only_eraser_removes_witness :
  exists extra,
    map Sticker.id
      (stickers (app (step (env0 7) (Click (pointerAt 120%float 120%float 0%Z))
                        {| app := pickSticker "fas fa-sun" scenarioState;
                           loading := [] |})))
    = ["sticker-1"%string] ++ map Sticker.id extra.
Proof.
  destruct (@only_eraser_removes (env0 7)
              (Click (pointerAt 120%float 120%float 0%Z))
              {| app := pickSticker "fas fa-sun" scenarioState;
                 loading := [] |}) as (H & _); [discriminate | exact H].
Defined.

(** ** Ids along a run *)

(** X15. Along every run from the first render whose events carry
    strictly increasing clock readings, the ids of the stickers, of the text
    boxes and of the images are pairwise distinct within their collection. *)
Theorem ids_distinct_along_advancing_clock
    (env : Env) (ok : bool) (bound : Z) (evs : list (Env * Event)) :
  clockAdvances bound evs ->
  NoDup (map Sticker.id (stickers (app (run evs (startWorld env ok)))))
  /\ NoDup (map TextBox.id (textBoxes (app (run evs (startWorld env ok)))))
  /\ NoDup (map Image.id (images (app (run evs (startWorld env ok))))).
Proof.
  intros Hc.
  destruct (@ids_distinct_while_clock_advances evs bound (startWorld env ok) Hc)
    as (b & (Hs & _) & (Ht & _) & (Hi & _)).
  - destruct ok; repeat split; constructor.
  - now repeat split.
Qed.

Lemma ids_distinct_along_advancing_clock_witness :
  NoDup (map Image.id
           (images (app (run [(env0 5, Paste (Some [pastedPng "blob:a"
                                                      600%float 400%float;
                                                    pastedPng "blob:b"
                                                      64%float 64%float]));
                              (env0 6, ImageLoaded 0);
                              (env0 7, ImageLoaded 0)]
                          (startWorld (env0 0) true))))).
Proof.
  destruct (@ids_distinct_along_advancing_clock (env0 0) true 0%Z
              [(env0 5, Paste (Some [pastedPng "blob:a" 600%float 400%float;
                                     pastedPng "blob:b" 64%float 64%float]));
               (env0 6, ImageLoaded 0);
               (env0 7, ImageLoaded 0)])
    as (_ & _ & H).
  - cbn. lia.
  - exact H.
Defined.

(** ** What touches the surface and the collections *)

Lemma onContext_surface (f : Ctx.t -> Ctx.t) (s : State) :
  (forall c, Ctx.bitmap (f c) = Ctx.bitmap c) ->
  surface (onContext f s) = surface s.
Proof.
  intros Hf. unfold onContext, surface.
  destruct (contextRef s) as [c|] eqn:E; cbn; rewrite ?E; [apply Hf | reflexivity].
Qed.

Lemma startDrawing_surface (env : Env) (e : MouseEvent) (s : State) :
  surface (startDrawing env e s) = surface s.
Proof.
  unfold startDrawing, surface.
  destruct (negb (Tool_eqb (tool s) pen)); [reflexivity|].
  destruct (canvasRef s), (contextRef s) as [c|] eqn:E; cbn; rewrite ?E;
    reflexivity.
Qed.

(** X17. Ink changes only under the pen and the eraser: an event other
    than a pointer move with the eraser or during a pen stroke, or a click
    with the eraser, leaves the painted surface as it is.  In particular
    placing, dragging, resizing and editing objects, pasting, zooming and
    changing the colour or the pen size do not touch existing ink. *)
Theorem surface_changes_only_by_pen_and_eraser
    (env : Env) (ev : Event) (w : World) :
  mayPaint ev (app w) = false ->
  surface (app (step env ev w)) = surface (app w).
Proof.
  intros H.
  destruct ev; cbn [step onApp app]; cbn [mayPaint] in H;
    try reflexivity;
    try apply stopDrawing_surface;
    try apply startDrawing_surface.
  - destruct t; reflexivity.
  - unfold pickColor, syncStyle. now rewrite onContext_surface.
  - unfold changePenSize, syncStyle. now rewrite onContext_surface.
  - apply orb_false_elim in H. destruct H as [He Hp].
    unfold onMouseMove. rewrite andb_comm, Hp.
    rewrite He. reflexivity.
  - unfold handleCanvasClick. rewrite H.
    destruct (canvasRef (app w)); [|reflexivity].
    destruct (Tool_eqb (tool (app w)) sticker
              && truthy (selectedSticker (app w))); [reflexivity|].
    destruct (Tool_eqb (tool (app w)) text); reflexivity.
  - destruct (nth_error (loading w) k) as [p|]; [|reflexivity].
    destruct (pending_natural p) as [[iw ih]|]; reflexivity.
Qed.

Lemma surface_changes_only_by_pen_and_eraser_witness :
  surface (app (step (env0 1) (ColorPicked "#ff0000")
                  {| app := stopDrawing strokeInProgress; loading := [] |}))
  = surface strokeInProgress.
Proof.
  rewrite (@surface_changes_only_by_pen_and_eraser (env0 1)
             (ColorPicked "#ff0000")
             {| app := stopDrawing strokeInProgress; loading := [] |} eq_refl).
  apply stopDrawing_surface.
Defined.

(** X18. Tool and picker buttons, the colour and pen-size controls,
    pointer-down, pointer-up, pointer-leave, paste events, the zoom buttons
    and a click on a text box change none of the three collections: stored
    objects keep their geometry and content whatever the zoom or the tool. *)
Theorem controls_leave_objects (env : Env) (ev : Event) (w : World) :
  leavesObjects ev = true ->
  stickers (app (step env ev w)) = stickers (app w)
  /\ textBoxes (app (step env ev w)) = textBoxes (app w)
  /\ images (app (step env ev w)) = images (app w).
Proof.
  intros H. destruct ev; try discriminate H; cbn [step onApp app];
    unfold_handlers; handler_cases; repeat split; reflexivity.
Qed.

Lemma controls_leave_objects_witness :
  stickers (app (step (env0 1) (ZoomButton dir_in)
                   {| app := scenarioState; loading := [] |}))
  = [scenarioSticker].
Proof.
  destruct (@controls_leave_objects (env0 1) (ZoomButton dir_in)
              {| app := scenarioState; loading := [] |} eq_refl) as (H & _).
  exact H.
Defined.

(** ** The cursor *)

Lemma erase_no_growth (env : Env) (e : MouseEvent) (s : State) :
  List.length (stickers (erase env e s)) <= List.length (stickers s)
  /\ List.length (textBoxes (erase env e s)) <= List.length (textBoxes s)
  /\ List.length (images (erase env e s)) <= List.length (images s).
Proof.
  destruct (erase_collections env e s) as (Hs & Ht & Hi).
  rewrite Hs, Ht, Hi.
  destruct (eraseApplies s); repeat split;
    first [apply filter_length_le | apply Nat.le_refl].
Qed.

(** X19. On the mounted canvas the cursor announces what a click does: it
    is "copy" exactly when the click adds a sticker and "text" exactly when
    the click adds a text box, and under the "default" and "crosshair"
    cursors a click changes nothing. *)
Theorem cursor_announces_click
    (env : Env) (e : MouseEvent) (s : State) (cv : HTMLCanvasElement) :
  canvasRef s = Some cv ->
  (cursor s = "copy"%string <->
   List.length (stickers (handleCanvasClick env e s))
   = S (List.length (stickers s)))
  /\ (cursor s = "text"%string <->
      List.length (textBoxes (handleCanvasClick env e s))
      = S (List.length (textBoxes s)))
  /\ (cursor s = "default"%string \/ cursor s = "crosshair"%string ->
      handleCanvasClick env e s = s).
Proof.
  intros Hv.
  pose proof (erase_no_growth env e s) as (Ls & Lt & _).
  unfold cursor, handleCanvasClick. rewrite Hv.
  destruct (tool s) eqn:Ht; cbn [Tool_eqb andb];
    try destruct (truthy (selectedSticker s)) eqn:Hk; cbn;
    rewrite ?length_app; cbn;
    (split; [split; [try discriminate; intros _; lia
                    | try (intros; reflexivity); intros; exfalso; lia]
            |split; [split; [try discriminate; intros _; lia
                            | try (intros; reflexivity); intros; exfalso; lia]
                    |]]);
    try (intros _; reflexivity);
    intros [H|H]; discriminate H.
Qed.

Lemma cursor_announces_click_witness :
  handleCanvasClick (env0 4) (pointerAt 10%float 10%float 0%Z) mounted
  = mounted.
Proof.
  destruct (@cursor_announces_click (env0 4) (pointerAt 10%float 10%float 0%Z)
              mounted _ eq_refl) as (_ & _ & H).
  apply H. left. reflexivity.
Defined.

(** ** Images that load late *)

(** Events other than pastes and image loads run on the component alone. *)
Lemma step_not_load (env : Env) (ev : Event) (a : State)
    (l : list PendingImage) :
  isLoadEvent ev = false ->
  step env ev {| app := a; loading := l |}
  = {| app := app (step env ev {| app := a; loading := [] |}); loading := l |}.
Proof. destruct ev; intros H; try discriminate H; reflexivity. Qed.

Lemma run_not_load (evs : list (Env * Event)) :
  forall (a : State) (l : list PendingImage),
  forallb (fun x => negb (isLoadEvent (snd x))) evs = true ->
  run evs {| app := a; loading := l |}
  = {| app := app (run evs {| app := a; loading := [] |}); loading := l |}.
Proof.
  induction evs as [|[env ev] evs IH]; intros a l H; cbn [run].
  - reflexivity.
  - cbn [forallb snd] in H. apply andb_prop in H. destruct H as [Hev H].
    apply negb_true_iff in Hev.
    rewrite (step_not_load env ev a l Hev), (step_not_load env ev a [] Hev).
    cbn [app]. now rewrite (IH _ l H), (IH _ [] H).
Qed.

(** X20. A pasted image that finishes loading after other events is still
    centred for the zoom in force when it was pasted: whatever events (other
    than pastes and loads) come between the paste and the load, the image is
    inserted as [img.onload] would insert it with the zoom of the paste, into
    the state those events have produced. *)
Theorem late_image_uses_zoom_of_paste
    (env_paste env_load : Env) (evs : list (Env * Event))
    (url : string) (img_width img_height : number) (s : State) :
  forallb (fun x => negb (isLoadEvent (snd x))) evs = true ->
  app (run ((env_paste, Paste (Some [pastedPng url img_width img_height]))
            :: evs ++ [(env_load, ImageLoaded 0)])
         {| app := s; loading := [] |})
  = imgOnload env_load (scale s) img_width img_height url
      (app (run evs {| app := s; loading := [] |})).
Proof.
  intros H. cbn [run].
  change (step env_paste (Paste (Some [pastedPng url img_width img_height]))
            {| app := s; loading := [] |})
    with {| app := s;
            loading := [ {| pending_url := url; pending_scale := scale s;
                            pending_natural := Some (img_width, img_height) |} ]
         |}.
  assert (forall evs1 evs2 w, run (evs1 ++ evs2) w = run evs2 (run evs1 w))
    as run_app.
  { induction evs1 as [|[en ev] evs1 IH]; intros evs2 w; cbn [run List.app];
      [reflexivity | apply IH]. }
  rewrite run_app, (run_not_load evs _ _ H). reflexivity.
Qed.

Lemma late_image_uses_zoom_of_paste_witness :
  images
    (app (run [(env0 1, Paste (Some [pastedPng "blob:a" 600%float 400%float]));
               (env0 2, ZoomButton dir_in);
               (env0 3, ImageLoaded 0)]
            {| app := mounted; loading := [] |}))
  = [Image.mk "img-3" 350%float 300%float 300%float 200%float "blob:a"].
Proof.
  pose proof (@late_image_uses_zoom_of_paste (env0 1) (env0 3)
                [(env0 2, ZoomButton dir_in)] "blob:a" 600%float 400%float
                mounted eq_refl) as H.
  cbn [List.app] in H. rewrite H. vm_compute. reflexivity.
Defined.
